(** * SimpleNotesApp backend: the request handlers of [main.py] over the
      schema of [models.py]

    The relational store is a pair of tables, each an ordered list of rows.
    The handlers are written in a small state-and-exception monad over the
    store, one definition per route, in the order of [main.py].  What the
    handlers obtain from outside the two files (the clock, the operating
    system's random source, [auth.get_password_hash], [datetime.isoformat])
    is passed in explicitly; [current_user] is the row of [users] that
    [Depends(auth.get_current_user)] resolved from the bearer token. *)

From Stdlib Require Import String Ascii List ZArith Bool Lia PeanoNat.
Import ListNotations.
Local Open Scope string_scope.

Set Implicit Arguments.

(** ** models.py *)

(** [class User(Base)].  [id] is the primary key.  [username] and [email] are
    written by [register] only, from the [str] fields of [UserCreate]. *)
Module User.
Record t : Type := mk
  { id : Z;
    username : string;
    email : string;
    hashed_password : string;
    created_at : Z }.
End User.

(** [class Note(Base)].  [owner_id] and [share_id] are nullable columns, hence
    options; [is_public] has the column default [False] and no handler writes
    NULL to it.  Timestamps are instants on the UTC clock. *)
Module Note.
Record t : Type := mk
  { id : Z;
    title : string;
    content : string;
    owner_id : option Z;
    is_public : bool;
    share_id : option string;
    created_at : Z;
    updated_at : Z }.
End Note.

(** ** The pydantic models of main.py *)

Module UserCreate.
Record t : Type := mk { username : string; email : string; password : string }.
End UserCreate.

Module NoteCreate.
Record t : Type := mk { title : string; content : string }.
End NoteCreate.

(** Every field of [NoteUpdate] is [Optional] with default [None]. *)
Module NoteUpdate.
Record t : Type := mk
  { title : option string; content : option string; is_public : option bool }.
End NoteUpdate.

Module NoteResponse.
Record t : Type := mk
  { id : Z;
    title : string;
    content : string;
    is_public : bool;
    share_id : option string;
    created_at : string;
    updated_at : string }.
End NoteResponse.

(** The dictionary returned by [get_shared_note]. *)
Module SharedNote.
Record t : Type := mk { title : string; content : string; created_at : string }.
End SharedNote.

(** ** The store and the session monad *)

Record DB : Type := mkDB { users : list User.t; notes : list Note.t }.

Definition empty_db : DB := mkDB [] [].

(** What a request sees of the outside world: the instant [datetime.utcnow]
    returns while the request is flushed, and the numbers the operating
    system's random source hands out, in the order they are asked for. *)
Record Env : Type := mkEnv { utcnow : Z; urandom : nat -> nat }.

(** The exceptions that leave a handler: the [HTTPException]s it raises itself
    and the [IntegrityError] of a commit that a uniqueness constraint of
    [models.py] rejects.  No handler has a [try]. *)
Inductive Exn : Type :=
| HTTPException (status_code : Z) (detail : string)
| IntegrityError (constraint : string).

Inductive Outcome (A : Type) : Type :=
| Return (a : A)
| Raise (e : Exn).

Arguments Raise {A} e.

Definition Session (A : Type) : Type := DB -> Outcome A * DB.

Definition ret {A} (a : A) : Session A := fun db => (Return a, db).

Definition raise {A} (e : Exn) : Session A := fun db => (Raise e, db).

Definition bind {A B} (m : Session A) (k : A -> Session B) : Session B :=
  fun db =>
    match m db with
    | (Return a, db') => k a db'
    | (Raise e, db') => (Raise e, db')
    end.

Declare Scope session_scope.
Delimit Scope session_scope with session.
Notation "x <- m ;; k" := (bind m (fun x => k))
  (at level 100, m at next level, right associativity) : session_scope.
Notation "m ;; k" := (bind m (fun _ => k))
  (at level 100, right associativity) : session_scope.
Local Open Scope session_scope.

(** The status line the framework sends: 200 for a returned value, the code
    of an [HTTPException], 500 for any other exception. *)
Definition status_of {A} (o : Outcome A) : Z :=
  match o with
  | Return _ => 200
  | Raise (HTTPException c _) => c
  | Raise (IntegrityError _) => 500
  end.

(** [column == value] in a filter: a NULL column never compares equal. *)
Definition col_eqZ (col : option Z) (v : Z) : bool :=
  match col with Some c => Z.eqb c v | None => false end.

Definition col_eqs (col : option string) (v : string) : bool :=
  match col with Some c => String.eqb c v | None => false end.

(** [db.query(T).filter(p).first()] *)
Definition query_first {R} (table : DB -> list R) (p : R -> bool)
  : Session (option R) :=
  fun db => (Return (find p (table db)), db).

(** [db.query(T).filter(p).all()] *)
Definition query_all {R} (table : DB -> list R) (p : R -> bool)
  : Session (list R) :=
  fun db => (Return (filter p (table db)), db).

(** The key the store gives a new row: one not held by any row of the table,
    here one more than the largest. *)
Definition next_id (ids : list Z) : Z := (1 + fold_right Z.max 0 ids)%Z.

(** [db.add(User(...)); db.commit()]: the store assigns the primary key and
    enforces [unique=True] on [username] and on [email]. *)
Definition insert_user (row : Z -> User.t) : Session User.t :=
  fun db =>
    let u := row (next_id (map User.id (users db))) in
    if existsb (fun r => User.username r =? User.username u) (users db)
    then (Raise (IntegrityError "users.username"), db)
    else if existsb (fun r => User.email r =? User.email u) (users db)
    then (Raise (IntegrityError "users.email"), db)
    else (Return u, mkDB (users db ++ [u]) (notes db)).

(** [db.add(Note(...)); db.commit(); db.refresh(...)]: the store assigns the
    primary key and enforces [unique=True] on [share_id]; NULLs do not
    collide. *)
Definition share_id_taken (s : option string) (rows : list Note.t) : bool :=
  match s with
  | Some v => existsb (fun r => col_eqs (Note.share_id r) v) rows
  | None => false
  end.

Definition insert_note (row : Z -> Note.t) : Session Note.t :=
  fun db =>
    let n := row (next_id (map Note.id (notes db))) in
    if share_id_taken (Note.share_id n) (notes db)
    then (Raise (IntegrityError "notes.share_id"), db)
    else (Return n, mkDB (users db) (notes db ++ [n])).

(** The flush of a loaded note whose attributes were assigned: the unit of
    work compares each assigned attribute with the loaded value and emits an
    UPDATE only for a net change; [onupdate=datetime.utcnow] sets
    [updated_at] when, and only when, that UPDATE is emitted. *)
Definition net_change (old new : Note.t) : bool :=
  negb ((Note.title old =? Note.title new)
        && (Note.content old =? Note.content new)
        && Bool.eqb (Note.is_public old) (Note.is_public new)).

Definition touch (now : Z) (n : Note.t) : Note.t :=
  Note.mk (Note.id n) (Note.title n) (Note.content n) (Note.owner_id n)
          (Note.is_public n) (Note.share_id n) (Note.created_at n) now.

Definition replace_row (n : Note.t) (rows : list Note.t) : list Note.t :=
  map (fun r => if Z.eqb (Note.id r) (Note.id n) then n else r) rows.

Definition flush_note (now : Z) (old new : Note.t) : Session Note.t :=
  fun db =>
    if net_change old new
    then let n := touch now new in
         (Return n, mkDB (users db) (replace_row n (notes db)))
    else (Return old, db).

(** [db.delete(note); db.commit()] *)
Definition delete_row (n : Note.t) : Session unit :=
  fun db =>
    (Return tt,
     mkDB (users db)
          (filter (fun r => negb (Z.eqb (Note.id r) (Note.id n))) (notes db))).

(** ** main.py *)

(** [string.ascii_letters + string.digits] *)
Definition ascii_letters : string :=
  "abcdefghijklmnopqrstuvwxyzABCDEFGHIJKLMNOPQRSTUVWXYZ".
Definition digits : string := "0123456789".
Definition alphabet : list ascii :=
  list_ascii_of_string (ascii_letters ++ digits).

(** [secrets.choice(seq)] is [seq[randbelow(len(seq))]]; [r] stands for the
    number [randbelow(len(seq))] returned, which is below [len(seq)] (see
    [randbelow] and [generate_share_id_drawing] for the draws behind it); the
    reduction only makes the function total on the other numbers. *)
Definition secrets_choice (seq : list ascii) (r : nat) : ascii :=
  nth (r mod length seq) seq Ascii.zero.

(** [''.join(secrets.choice(...) for _ in range(10))] *)
Definition generate_share_id (rand : nat -> nat) : string :=
  string_of_list_ascii
    (map (fun i => secrets_choice alphabet (rand i)) (seq 0 10)).

Section Handlers.

(** [auth.get_password_hash] (the module [auth] is outside the two files):
    a function of the plaintext and of the random source it salts from. *)
Variable get_password_hash : (nat -> nat) -> string -> string.

(** [datetime.isoformat] *)
Variable isoformat : Z -> string.

(** The [NoteResponse(...)] built from a row by [get_notes], [create_note]
    and [update_note]. *)
Definition note_response (n : Note.t) : NoteResponse.t :=
  NoteResponse.mk (Note.id n) (Note.title n) (Note.content n)
                  (Note.is_public n) (Note.share_id n)
                  (isoformat (Note.created_at n))
                  (isoformat (Note.updated_at n)).

(** [register], lines 59-64: the query for an existing user and the 400. *)
Definition register_check (user : UserCreate.t) : Session unit :=
  db_user <- query_first users
               (fun u => (User.username u =? UserCreate.username user)
                         || (User.email u =? UserCreate.email user)) ;;
  match db_user with
  | Some _ => raise (HTTPException 400 "Username or email already registered")
  | None => ret tt
  end.

(** [register], lines 66-76: hash, add, commit, answer. *)
Definition register_create (user : UserCreate.t) (env : Env) : Session string :=
  let hashed_password :=
    get_password_hash (urandom env) (UserCreate.password user) in
  _ <- insert_user (fun i =>
         User.mk i (UserCreate.username user) (UserCreate.email user)
                 hashed_password (utcnow env)) ;;
  ret "User created successfully".

Definition register (user : UserCreate.t) (env : Env) : Session string :=
  register_check user ;; register_create user env.

(** [register] when other requests commit [others] to the store between
    its query and its commit. *)
Definition interfere (others : DB -> DB) : Session unit :=
  fun db => (Return tt, others db).

Definition register_interleaved
           (user : UserCreate.t) (env : Env) (others : DB -> DB)
  : Session string :=
  register_check user ;; interfere others ;; register_create user env.

Definition owned_by (current_user : User.t) (n : Note.t) : bool :=
  col_eqZ (Note.owner_id n) (User.id current_user).

Definition get_notes (current_user : User.t) : Session (list NoteResponse.t) :=
  notes <- query_all notes (owned_by current_user) ;;
  ret (map note_response notes).

Definition create_note (note : NoteCreate.t) (current_user : User.t) (env : Env)
  : Session NoteResponse.t :=
  db_note <- insert_note (fun i =>
               Note.mk i (NoteCreate.title note) (NoteCreate.content note)
                       (Some (User.id current_user))
                       false
                       (Some (generate_share_id (urandom env)))
                       (utcnow env) (utcnow env)) ;;
  ret (note_response db_note).

(** The three guarded assignments of [update_note], lines 140-145. *)
Definition assign (note_update : NoteUpdate.t) (n : Note.t) : Note.t :=
  Note.mk (Note.id n)
          (match NoteUpdate.title note_update with
           | Some v => v | None => Note.title n end)
          (match NoteUpdate.content note_update with
           | Some v => v | None => Note.content n end)
          (Note.owner_id n)
          (match NoteUpdate.is_public note_update with
           | Some v => v | None => Note.is_public n end)
          (Note.share_id n) (Note.created_at n) (Note.updated_at n).

Definition update_note (note_id : Z) (note_update : NoteUpdate.t)
           (current_user : User.t) (env : Env) : Session NoteResponse.t :=
  db_note <- query_first notes
               (fun n => Z.eqb (Note.id n) note_id && owned_by current_user n) ;;
  match db_note with
  | None => raise (HTTPException 404 "Note not found")
  | Some n =>
      db_note <- flush_note (utcnow env) n (assign note_update n) ;;
      ret (note_response db_note)
  end.

Definition delete_note (note_id : Z) (current_user : User.t) : Session string :=
  db_note <- query_first notes
               (fun n => Z.eqb (Note.id n) note_id && owned_by current_user n) ;;
  match db_note with
  | None => raise (HTTPException 404 "Note not found")
  | Some n =>
      delete_row n ;;
      ret "Note deleted successfully"
  end.

Definition shared_note (n : Note.t) : SharedNote.t :=
  SharedNote.mk (Note.title n) (Note.content n) (isoformat (Note.created_at n)).

Definition get_shared_note (share_id : string) : Session SharedNote.t :=
  note <- query_first notes
            (fun n => col_eqs (Note.share_id n) share_id && Note.is_public n) ;;
  match note with
  | None => raise (HTTPException 404 "Note not found or not public")
  | Some n => ret (shared_note n)
  end.

End Handlers.

(** The exception of lines 138 and 168. *)
Definition not_found : Exn := HTTPException 404 "Note not found".

(** The exception of line 183. *)
Definition not_public : Exn := HTTPException 404 "Note not found or not public".

(** ** The constraints of the schema *)

(** The non-NULL values of the [share_id] column. *)
Definition share_ids (rows : list Note.t) : list string :=
  flat_map (fun n => match Note.share_id n with
                     | Some s => [s]
                     | None => []
                     end) rows.

(** What [models.py] declares and the store maintains: the primary keys and
    the three [unique=True] columns hold no value twice. *)
Record wf (db : DB) : Prop := mkWf
  { wf_note_id : NoDup (map Note.id (notes db));
    wf_share_id : NoDup (share_ids (notes db));
    wf_user_id : NoDup (map User.id (users db));
    wf_username : NoDup (map User.username (users db));
    wf_email : NoDup (map User.email (users db)) }.

(** A note as [create_note] leaves it: a token of ten characters and an
    owner. *)
Definition has_token_and_owner (n : Note.t) : Prop :=
  (exists s, Note.share_id n = Some s /\ String.length s = 10)
  /\ (exists o, Note.owner_id n = Some o).

Section Reachability.

Variable get_password_hash : (nat -> nat) -> string -> string.
Variable isoformat : Z -> string.

(** One request that can write to the store, whatever its outcome. *)
Inductive request : DB -> DB -> Prop :=
| req_register user env o db db' :
    register get_password_hash user env db = (o, db') -> request db db'
| req_create note current_user env o db db' :
    create_note isoformat note current_user env db = (o, db') -> request db db'
| req_update note_id note_update current_user env o db db' :
    update_note isoformat note_id note_update current_user env db = (o, db') ->
    request db db'
| req_delete note_id current_user o db db' :
    delete_note note_id current_user db = (o, db') -> request db db'.

(** The stores the service can be in, starting from the empty tables that
    [create_all] makes. *)
Inductive reachable : DB -> Prop :=
| reach_empty : reachable empty_db
| reach_request db db' : reachable db -> request db db' -> reachable db'.

End Reachability.

(** ** The alphabet of the share ids *)

(** A-Z, a-z, 0-9 by character code. *)
Definition is_alnum (c : ascii) : bool :=
  let n := nat_of_ascii c in
  (Nat.leb 65 n && Nat.leb n 90) || (Nat.leb 97 n && Nat.leb n 122)
  || (Nat.leb 48 n && Nat.leb n 57).

(** The index of the first occurrence of [c] in [l]. *)
Fixpoint position (c : ascii) (l : list ascii) : nat :=
  match l with
  | [] => 0
  | x :: l' => if Ascii.eqb x c then 0 else S (position c l')
  end.

(** Whether no character occurs twice in [l]. *)
Fixpoint distinct (l : list ascii) : bool :=
  match l with
  | [] => true
  | x :: l' => negb (existsb (Ascii.eqb x) l') && distinct l'
  end.

(** ** [random.SystemRandom], as [secrets.choice] uses it *)

(** [n.bit_length()] *)
Definition bit_length (n : nat) : nat :=
  if Nat.eqb n 0 then 0 else S (Nat.log2 n).

(** [_randbelow(n)]: [r = getrandbits(k)], then [while r >= n:
    r = getrandbits(k)], on the successive results [draws] of
    [getrandbits(k)].  It gives the first draw below [n] and the draws after
    it, and nothing when the draws run out before one is below [n]. *)
Fixpoint randbelow (n : nat) (draws : list nat) : option (nat * list nat) :=
  match draws with
  | [] => None
  | r :: rest => if Nat.ltb r n then Some (r, rest) else randbelow n rest
  end.

(** [choice(seq)]: [seq[self._randbelow(len(seq))]] *)
Definition choice (seq : list ascii) (draws : list nat)
  : option (ascii * list nat) :=
  match randbelow (length seq) draws with
  | Some (r, rest) => Some (nth r seq Ascii.zero, rest)
  | None => None
  end.

(** [secrets.choice(seq) for _ in range(count)], one choice after the other
    on the same source. *)
Fixpoint choices (count : nat) (seq : list ascii) (draws : list nat)
  : option (list ascii * list nat) :=
  match count with
  | 0 => Some ([], draws)
  | S count' =>
      match choice seq draws with
      | None => None
      | Some (c, rest) =>
          match choices count' seq rest with
          | None => None
          | Some (cs, rest') => Some (c :: cs, rest')
          end
      end
  end.







(** ** The authenticator *)

Section Authenticator.

(** The salted one-way transform of the hashing algorithm. *)
Variable digest : string -> string -> string.

(** Modelled from the spec: [auth.py], which holds the password functions,
    is not among the source files.  [hash_password(plaintext) -> hash]
    applies the salted transform under the salt drawn for the call and
    stores the salt with the result. *)
Definition hash_password (salt plaintext : string) : string * string :=
  (salt, digest salt plaintext).

(** Modelled from the spec: [verify_password(plaintext, hash) -> bool] is
    true iff the plaintext matches the hash under the algorithm's
    comparison: the transform of the plaintext under the stored salt is the
    stored result. *)
Definition verify_password (plaintext : string) (hash : string * string) : bool :=
  digest (fst hash) plaintext =? snd hash.

End Authenticator.

(** ** A small store for the examples *)

(** Stand-ins for [datetime.isoformat] and [auth.get_password_hash]. *)
Definition demo_isoformat (t : Z) : string :=
  if Z.eqb t 0 then "1970-01-01T00:00:00" else "later".

Definition demo_hash (rand : nat -> nat) (plaintext : string) : string :=
  String (secrets_choice alphabet (rand 0 + String.length plaintext)) "$".

Definition zeros : nat -> nat := fun _ => 0.

Definition alice : User.t :=
  User.mk 1 "alice" "a@x.com" (demo_hash zeros "pw123") 0.

Definition bob : User.t :=
  User.mk 2 "bob" "b@x.com" (demo_hash zeros "hunter2") 0.

(** Alice's note of the end-to-end scenario, created at instant 100 and made
    public at instant 150. *)
Definition grocery : Note.t :=
  Note.mk 1 "Grocery" "milk" (Some 1%Z) true (Some "aaaaaaaaaa") 100 150.

Definition demo_db : DB := mkDB [alice; bob] [grocery].

(** The note as POST /notes stored it. *)
Definition grocery_created : Note.t :=
  Note.mk 1 "Grocery" "milk" (Some 1%Z) false (Some "aaaaaaaaaa") 100 100.

(** A registration, and a second one with the same username that commits
    while the first is between its query and its commit. *)
Definition carol : UserCreate.t := UserCreate.mk "carol" "c@x.com" "pw".

Definition carol_too : UserCreate.t := UserCreate.mk "carol" "c2@x.com" "pw2".

Definition racing_register (db : DB) : DB :=
  snd (register demo_hash carol_too (mkEnv 9 zeros) db).

(** ** main.py, [login] *)

(** The two fields of [OAuth2PasswordRequestForm] that [login] reads. *)
Module OAuth2PasswordRequestForm.
Record t : Type := mk { username : string; password : string }.
End OAuth2PasswordRequestForm.

(** The dictionary returned by [login]. *)
Module TokenResponse.
Record t : Type := mk { access_token : string; token_type : string }.
End TokenResponse.

(** What leaves [login]: its dictionary, or its [HTTPException], which
    carries headers. *)
Inductive LoginOutcome : Type :=
| LoginReturn (r : TokenResponse.t)
| LoginRaise (status_code : Z) (detail : string) (headers : list (string * string)).

(** The exception of lines 83-87; [status.HTTP_401_UNAUTHORIZED] is 401. *)
Definition unauthorized : LoginOutcome :=
  LoginRaise 401 "Incorrect username or password"
             [("WWW-Authenticate", "Bearer")].

Section Login.

(** [auth.verify_password(plain, hashed)] and [auth.create_access_token(data)]
    of the module [auth], outside the two files; the token is made from the
    dictionary it is given and from what the request sees of the world. *)
Variable auth_verify_password : string -> string -> bool.
Variable create_access_token : Env -> list (string * string) -> string.

Definition login (form_data : OAuth2PasswordRequestForm.t) (env : Env) (db : DB)
  : LoginOutcome * DB :=
  match find (fun u => User.username u
                       =? OAuth2PasswordRequestForm.username form_data)
             (users db) with
  | None => (unauthorized, db)
  | Some user =>
      if negb (auth_verify_password
                 (OAuth2PasswordRequestForm.password form_data)
                 (User.hashed_password user))
      then (unauthorized, db)
      else (LoginReturn
              (TokenResponse.mk
                 (create_access_token env [("sub", User.username user)])
                 "bearer"),
            db)
  end.

End Login.

(** Stand-ins for [auth.verify_password] and [auth.create_access_token] in
    the examples. *)
Definition demo_verify (plain hashed : string) : bool :=
  demo_hash zeros plain =? hashed.

Definition demo_token (env : Env) (data : list (string * string)) : string :=
  String.concat "." (map snd data).

(** Bob's first note, created at instant 300 when the random source yields
    ones, and the example store with it. *)
Definition ones : nat -> nat := fun _ => 1.

Definition todo : Note.t :=
  Note.mk 2 "Todo" "eggs" (Some 2%Z) false (Some "bbbbbbbbbb") 300 300.

Definition demo_db_todo : DB := mkDB [alice; bob] [grocery; todo].

(** Carol as [register] stores her at instant 5, and the example store with
    her. *)
Definition carol_row : User.t :=
  User.mk 3 "carol" "c@x.com" (demo_hash zeros "pw") 5.

Definition demo_db_carol : DB := mkDB [alice; bob; carol_row] [grocery].

(** Alice's note after she has changed its content at instant 200. *)
Definition grocery_eggs : Note.t :=
  Note.mk 1 "Grocery" "eggs" (Some 1%Z) true (Some "aaaaaaaaaa") 100 200.

(** ** Lists and columns *)

Lemma NoDup_map_eq {A B} (f : A -> B) (l : list A) (a b : A) :
  NoDup (map f l) -> In a l -> In b l -> f a = f b -> a = b.
Proof.
  induction l as [|x l IH]; simpl; intros Hnd Ha Hb Hf; [contradiction|].
  inversion Hnd as [|? ? Hx Hl]; subst.
  destruct Ha as [->|Ha], Hb as [->|Hb]; trivial.
  - exfalso. apply Hx. rewrite Hf. now apply in_map.
  - exfalso. apply Hx. rewrite <- Hf. now apply in_map.
  - now apply IH.
Qed.

Lemma in_share_ids (rows : list Note.t) (s : string) :
  In s (share_ids rows) <-> exists n, In n rows /\ Note.share_id n = Some s.
Proof.
  unfold share_ids. rewrite in_flat_map. split; intros (n & Hn & H); exists n.
  - destruct (Note.share_id n); simpl in H; [|contradiction].
    destruct H as [->|[]]. now split.
  - rewrite H. simpl. auto.
Qed.

Lemma share_id_unique (rows : list Note.t) (a b : Note.t) (s : string) :
  NoDup (share_ids rows) -> In a rows -> In b rows ->
  Note.share_id a = Some s -> Note.share_id b = Some s -> a = b.
Proof.
  induction rows as [|x rows IH]; simpl; intros Hnd Ha Hb Hsa Hsb; [contradiction|].
  assert (Hrows : NoDup (share_ids rows)).
  { unfold share_ids in *. simpl in Hnd.
    apply NoDup_app_remove_l in Hnd. exact Hnd. }
  assert (Hfresh : Note.share_id x = Some s -> ~ In s (share_ids rows)).
  { intros Hx Hin. unfold share_ids in Hnd, Hin. simpl in Hnd. rewrite Hx in Hnd.
    simpl in Hnd. inversion Hnd; subst. contradiction. }
  destruct Ha as [->|Ha], Hb as [->|Hb]; trivial.
  - exfalso. apply (Hfresh Hsa). apply in_share_ids. now exists b.
  - exfalso. apply (Hfresh Hsb). apply in_share_ids. now exists a.
  - now apply IH.
Qed.

Lemma col_eqs_true (col : option string) (v : string) :
  col_eqs col v = true <-> col = Some v.
Proof.
  destruct col as [c|]; simpl.
  - rewrite String.eqb_eq. split; congruence.
  - split; discriminate.
Qed.

Lemma col_eqZ_true (col : option Z) (v : Z) :
  col_eqZ col v = true <-> col = Some v.
Proof.
  destruct col as [c|]; simpl.
  - rewrite Z.eqb_eq. split; congruence.
  - split; discriminate.
Qed.

(** The row that [filter(id == note_id, owner_id == caller.id).first()]
    finds, under the primary key. *)
Lemma find_owned_row (db : DB) (current_user : User.t) (n : Note.t) :
  NoDup (map Note.id (notes db)) -> In n (notes db) ->
  find (fun r => Z.eqb (Note.id r) (Note.id n) && owned_by current_user r)
       (notes db)
  = if owned_by current_user n then Some n else None.
Proof.
  intros Hnd Hin.
  destruct (find _ (notes db)) as [r|] eqn:Hf.
  - apply find_some in Hf. destruct Hf as [Hr Hp].
    apply andb_true_iff in Hp. destruct Hp as [Hid Hown].
    apply Z.eqb_eq in Hid.
    assert (r = n) by (eapply NoDup_map_eq; eauto). subst r.
    now rewrite Hown.
  - destruct (owned_by current_user n) eqn:Hown; trivial.
    apply (find_none _ _ Hf) in Hin. simpl in Hin.
    rewrite Z.eqb_refl, Hown in Hin. discriminate.
Qed.

Lemma find_shared_row (db : DB) (n : Note.t) (s : string) :
  NoDup (share_ids (notes db)) -> In n (notes db) ->
  Note.share_id n = Some s -> Note.is_public n = true ->
  find (fun r => col_eqs (Note.share_id r) s && Note.is_public r) (notes db)
  = Some n.
Proof.
  intros Hnd Hin Hs Hp.
  destruct (find _ (notes db)) as [r|] eqn:Hf.
  - apply find_some in Hf. destruct Hf as [Hr Hq].
    apply andb_true_iff in Hq. destruct Hq as [Hrs _].
    apply col_eqs_true in Hrs. f_equal. eapply share_id_unique; eauto.
  - apply (find_none _ _ Hf) in Hin. simpl in Hin.
    rewrite Hs, Hp in Hin. simpl in Hin. rewrite String.eqb_refl in Hin.
    discriminate.
Qed.

Lemma in_replace_row (n r : Note.t) (rows : list Note.t) :
  In r (replace_row n rows) ->
  r = n \/ (In r rows /\ Note.id r <> Note.id n).
Proof.
  unfold replace_row. rewrite in_map_iff. intros (x & Hx & Hin).
  destruct (Z.eqb (Note.id x) (Note.id n)) eqn:E.
  - left. congruence.
  - right. subst r. apply Z.eqb_neq in E. now split.
Qed.

Lemma net_change_false (old new : Note.t) :
  net_change old new = false ->
  Note.title old = Note.title new
  /\ Note.content old = Note.content new
  /\ Note.is_public old = Note.is_public new.
Proof.
  unfold net_change. intros H. apply negb_false_iff in H.
  apply andb_true_iff in H. destruct H as [H Hp].
  apply andb_true_iff in H. destruct H as [Ht Hc].
  apply String.eqb_eq in Ht. apply String.eqb_eq in Hc.
  apply Bool.eqb_prop in Hp. auto.
Qed.

Section Properties.

Variable get_password_hash : (nat -> nat) -> string -> string.
Variable isoformat : Z -> string.

(** The two outcomes of [update_note], by what the query finds. *)
Lemma update_note_absent note_id note_update current_user env db :
  find (fun n => Z.eqb (Note.id n) note_id && owned_by current_user n) (notes db)
  = None ->
  update_note isoformat note_id note_update current_user env db = (Raise not_found, db).
Proof.
  intros H. unfold update_note, bind, query_first. now rewrite H.
Qed.

Lemma update_note_found note_id note_update current_user env db n :
  find (fun n => Z.eqb (Note.id n) note_id && owned_by current_user n) (notes db)
  = Some n ->
  update_note isoformat note_id note_update current_user env db
  = if net_change n (assign note_update n)
    then let n' := touch (utcnow env) (assign note_update n) in
         (Return (note_response isoformat n'),
          mkDB (users db) (replace_row n' (notes db)))
    else (Return (note_response isoformat n), db).
Proof.
  intros H. unfold update_note, bind, query_first, flush_note, ret.
  rewrite H. now destruct (net_change n (assign note_update n)).
Qed.

Lemma delete_note_absent note_id current_user db :
  find (fun n => Z.eqb (Note.id n) note_id && owned_by current_user n) (notes db)
  = None ->
  delete_note note_id current_user db = (Raise not_found, db).
Proof.
  intros H. unfold delete_note, bind, query_first. now rewrite H.
Qed.

Lemma delete_note_found note_id current_user db n :
  find (fun n => Z.eqb (Note.id n) note_id && owned_by current_user n) (notes db)
  = Some n ->
  delete_note note_id current_user db
  = (Return "Note deleted successfully",
     mkDB (users db)
          (filter (fun r => negb (Z.eqb (Note.id r) (Note.id n))) (notes db))).
Proof.
  intros H. unfold delete_note, bind, query_first, delete_row, ret.
  now rewrite H.
Qed.

(** C1.  A caller who is not the owner of a stored note gets 404 from
    PUT /notes/{id} and from DELETE /notes/{id} on it, and the store, with
    the note in it, is what it was. *)
Theorem foreign_note_is_not_found
        (db : DB) (n : Note.t) (a : Z) (current_user : User.t)
        (note_update : NoteUpdate.t) (env : Env) :
  wf db -> In n (notes db) ->
  Note.owner_id n = Some a -> a <> User.id current_user ->
  update_note isoformat (Note.id n) note_update current_user env db
  = (Raise (HTTPException 404 "Note not found"), db)
  /\ delete_note (Note.id n) current_user db
     = (Raise (HTTPException 404 "Note not found"), db).
Proof.
  intros Hwf Hin Ho Hne.
  assert (Hf : find (fun r => Z.eqb (Note.id r) (Note.id n)
                              && owned_by current_user r) (notes db) = None).
  { rewrite (find_owned_row db current_user n (wf_note_id Hwf) Hin).
    destruct (owned_by current_user n) eqn:E; trivial.
    apply col_eqZ_true in E. congruence. }
  split.
  - now apply update_note_absent.
  - now apply delete_note_absent.
Qed.

(** C10.  Whenever PUT or DELETE on a note raises, the store it leaves is
    the store it found; and they raise the 404 whenever no row has the
    requested id together with the caller as owner. *)
Theorem not_found_leaves_store
        (note_id : Z) (note_update : NoteUpdate.t) (current_user : User.t)
        (env : Env) (db : DB) :
  (forall e db',
      update_note isoformat note_id note_update current_user env db = (Raise e, db') ->
      e = HTTPException 404 "Note not found" /\ db' = db)
  /\ (forall e db',
         delete_note note_id current_user db = (Raise e, db') ->
         e = HTTPException 404 "Note not found" /\ db' = db)
  /\ ((forall n, In n (notes db) -> Note.id n = note_id ->
                 Note.owner_id n <> Some (User.id current_user)) ->
      update_note isoformat note_id note_update current_user env db
      = (Raise (HTTPException 404 "Note not found"), db)
      /\ delete_note note_id current_user db
         = (Raise (HTTPException 404 "Note not found"), db)).
Proof.
  destruct (find (fun n => Z.eqb (Note.id n) note_id && owned_by current_user n)
                 (notes db)) as [n|] eqn:Hf.
  - split; [|split].
    + intros e db'. rewrite update_note_found with (n := n) by exact Hf.
      destruct (net_change n (assign note_update n)); discriminate.
    + intros e db'. rewrite delete_note_found with (n := n) by exact Hf. discriminate.
    + intros Hnone. exfalso. apply find_some in Hf. destruct Hf as [Hin Hp].
      apply andb_true_iff in Hp. destruct Hp as [Hid Hown].
      apply Z.eqb_eq in Hid. apply col_eqZ_true in Hown.
      exact (Hnone n Hin Hid Hown).
  - rewrite update_note_absent by exact Hf. rewrite delete_note_absent by exact Hf.
    split; [|split].
    + intros e db' H. inversion H. now split.
    + intros e db' H. inversion H. now split.
    + intros _. now split.
Qed.

Lemma get_shared_note_found share_id db n :
  find (fun r => col_eqs (Note.share_id r) share_id && Note.is_public r) (notes db)
  = Some n ->
  get_shared_note isoformat share_id db = (Return (shared_note isoformat n), db).
Proof.
  intros H. unfold get_shared_note, bind, query_first, ret. now rewrite H.
Qed.

Lemma get_shared_note_absent share_id db :
  find (fun r => col_eqs (Note.share_id r) share_id && Note.is_public r) (notes db)
  = None ->
  get_shared_note isoformat share_id db = (Raise not_public, db).
Proof.
  intros H. unfold get_shared_note, bind, query_first, raise. now rewrite H.
Qed.

Lemma no_public_row share_id db :
  (forall n, In n (notes db) -> Note.share_id n = Some share_id ->
             Note.is_public n = false) ->
  find (fun r => col_eqs (Note.share_id r) share_id && Note.is_public r) (notes db)
  = None.
Proof.
  intros H.
  destruct (find _ (notes db)) as [r|] eqn:Hf; trivial.
  apply find_some in Hf. destruct Hf as [Hin Hp].
  apply andb_true_iff in Hp. destruct Hp as [Hs Hpub].
  apply col_eqs_true in Hs. rewrite (H r Hin Hs) in Hpub. discriminate.
Qed.


(** *** What each request does to the tables *)

Lemma next_id_above (ids : list Z) (i : Z) : In i ids -> (i < next_id ids)%Z.
Proof.
  unfold next_id. induction ids as [|x ids IH]; cbn [fold_right In];
    [contradiction|].
  intros [->|H]; [|specialize (IH H)]; lia.
Qed.

Lemma next_id_fresh (ids : list Z) : ~ In (next_id ids) ids.
Proof. intros H. apply next_id_above in H. lia. Qed.

Lemma NoDup_snoc {A} (l : list A) (x : A) :
  NoDup l -> ~ In x l -> NoDup (l ++ [x])%list.
Proof.
  induction l as [|y l IH]; simpl; intros Hnd Hx.
  - constructor; [easy|constructor].
  - inversion Hnd; subst. constructor.
    + rewrite in_app_iff. simpl. intros [H|[H|[]]]; [contradiction|].
      apply Hx. now left.
    + apply IH; trivial. intros H. apply Hx. now right.
Qed.

Lemma replace_row_same (n : Note.t) (rows : list Note.t) :
  NoDup (map Note.id rows) -> In n rows -> replace_row n rows = rows.
Proof.
  intros Hnd Hin. unfold replace_row.
  rewrite <- (map_id rows) at 2. apply map_ext_in. intros r Hr.
  destruct (Z.eqb (Note.id r) (Note.id n)) eqn:E; trivial.
  apply Z.eqb_eq in E. symmetry. eapply NoDup_map_eq; eauto.
Qed.

Lemma replace_row_ids (n : Note.t) (rows : list Note.t) :
  map Note.id (replace_row n rows) = map Note.id rows.
Proof.
  unfold replace_row. rewrite map_map. apply map_ext. intros r.
  destruct (Z.eqb (Note.id r) (Note.id n)) eqn:E; trivial.
  apply Z.eqb_eq in E. congruence.
Qed.

Lemma replace_row_share_ids (old n : Note.t) (rows : list Note.t) :
  NoDup (map Note.id rows) -> In old rows ->
  Note.id n = Note.id old -> Note.share_id n = Note.share_id old ->
  share_ids (replace_row n rows) = share_ids rows.
Proof.
  intros Hnd Hin Hid Hs. unfold share_ids, replace_row.
  rewrite !flat_map_concat_map, map_map. f_equal.
  apply map_ext_in. intros r Hr.
  destruct (Z.eqb (Note.id r) (Note.id n)) eqn:E; trivial.
  apply Z.eqb_eq in E.
  assert (r = old) by (eapply NoDup_map_eq; eauto; congruence).
  subst r. now rewrite Hs.
Qed.

Lemma filter_keeps_note_ids (p : Note.t -> bool) (rows : list Note.t) :
  NoDup (map Note.id rows) -> NoDup (map Note.id (filter p rows)).
Proof.
  induction rows as [|x rows IH]; simpl; intros Hnd; [constructor|].
  inversion Hnd as [|? ? Hx Hrows]; subst.
  destruct (p x); simpl; [constructor|]; auto.
  intros H. apply Hx. apply in_map_iff in H. destruct H as (y & Hy & Hin).
  apply filter_In in Hin. apply in_map_iff. exists y. tauto.
Qed.

Lemma NoDup_share_ids_filter (p : Note.t -> bool) (rows : list Note.t) :
  NoDup (share_ids rows) -> NoDup (share_ids (filter p rows)).
Proof.
  induction rows as [|x rows IH]; simpl; intros Hnd; [constructor|].
  assert (Hrows : NoDup (share_ids rows)).
  { unfold share_ids in *. simpl in Hnd. now apply NoDup_app_remove_l in Hnd. }
  destruct (p x); auto.
  unfold share_ids in *. simpl in *.
  destruct (Note.share_id x) as [s|]; simpl in *; auto.
  inversion Hnd as [|? ? Hs _]; subst. constructor; auto.
  intros H. apply Hs. apply in_flat_map in H. destruct H as (y & Hy & H).
  apply filter_In in Hy. apply in_flat_map. exists y. tauto.
Qed.

Lemma share_ids_snoc (rows : list Note.t) (n : Note.t) (s : string) :
  Note.share_id n = Some s -> share_ids (rows ++ [n]) = (share_ids rows ++ [s])%list.
Proof.
  intros H. unfold share_ids. rewrite flat_map_app. simpl.
  now rewrite H, app_nil_r.
Qed.

Lemma share_id_taken_false (rows : list Note.t) (s : string) :
  share_id_taken (Some s) rows = false -> ~ In s (share_ids rows).
Proof.
  simpl. intros H Hin. apply in_share_ids in Hin. destruct Hin as (n & Hn & Hs).
  assert (existsb (fun r => col_eqs (Note.share_id r) s) rows = true).
  { apply existsb_exists. exists n. split; trivial. now apply col_eqs_true. }
  congruence.
Qed.

Lemma existsb_eqb_false {A} (f : A -> string) (l : list A) (v : string) :
  existsb (fun r => f r =? v) l = false -> ~ In v (map f l).
Proof.
  intros H Hin. apply in_map_iff in Hin. destruct Hin as (x & Hx & Hin).
  assert (existsb (fun r => f r =? v) l = true).
  { apply existsb_exists. exists x. split; trivial. now apply String.eqb_eq. }
  congruence.
Qed.

Lemma register_duplicate user env db u :
  find (fun u => (User.username u =? UserCreate.username user)
                 || (User.email u =? UserCreate.email user)) (users db)
  = Some u ->
  register get_password_hash user env db
  = (Raise (HTTPException 400 "Username or email already registered"), db).
Proof.
  intros H. unfold register, register_check, bind, query_first, raise.
  now rewrite H.
Qed.

Lemma register_fresh user env db :
  find (fun u => (User.username u =? UserCreate.username user)
                 || (User.email u =? UserCreate.email user)) (users db)
  = None ->
  register get_password_hash user env db
  = (Return "User created successfully",
     mkDB (users db ++
           [User.mk (next_id (map User.id (users db)))
                    (UserCreate.username user) (UserCreate.email user)
                    (get_password_hash (urandom env) (UserCreate.password user))
                    (utcnow env)])
          (notes db)).
Proof.
  intros H.
  unfold register, register_check, register_create, bind, query_first, ret,
    insert_user.
  rewrite H. simpl.
  assert (Hu : existsb (fun r => User.username r =? UserCreate.username user)
                       (users db) = false).
  { destruct (existsb _ (users db)) eqn:E; trivial.
    apply existsb_exists in E. destruct E as (x & Hx & E).
    apply (find_none _ _ H) in Hx. apply orb_false_iff in Hx.
    destruct Hx. congruence. }
  assert (He : existsb (fun r => User.email r =? UserCreate.email user)
                       (users db) = false).
  { destruct (existsb (fun r => User.email r =? _) (users db)) eqn:E; trivial.
    apply existsb_exists in E. destruct E as (x & Hx & E).
    apply (find_none _ _ H) in Hx. apply orb_false_iff in Hx.
    destruct Hx. congruence. }
  now rewrite Hu, He.
Qed.

Lemma create_note_eq note current_user env db :
  create_note isoformat note current_user env db
  = let n := Note.mk (next_id (map Note.id (notes db)))
                     (NoteCreate.title note) (NoteCreate.content note)
                     (Some (User.id current_user)) false
                     (Some (generate_share_id (urandom env)))
                     (utcnow env) (utcnow env) in
    if share_id_taken (Some (generate_share_id (urandom env))) (notes db)
    then (Raise (IntegrityError "notes.share_id"), db)
    else (Return (note_response isoformat n),
          mkDB (users db) (notes db ++ [n])).
Proof.
  unfold create_note, bind, insert_note, ret. cbn [Note.share_id].
  now destruct (share_id_taken _ (notes db)).
Qed.

Lemma generate_share_id_length (rand : nat -> nat) :
  String.length (generate_share_id rand) = 10.
Proof. reflexivity. Qed.

(** Every request keeps the constraints of the schema. *)
Lemma request_wf db db' :
  request get_password_hash isoformat db db' -> wf db -> wf db'.
Proof.
  intros Hreq Hwf. destruct Hwf as [Hni Hsi Hui Hun Hue].
  destruct Hreq as [user env o db db' H|note cu env o db db' H
                    |note_id upd cu env o db db' H|note_id cu o db db' H].
  - destruct (find (fun u => (User.username u =? UserCreate.username user)
                             || (User.email u =? UserCreate.email user))
                   (users db)) as [u|] eqn:Hf.
    + rewrite register_duplicate with (u := u) in H by exact Hf.
      inversion H; subst. now constructor.
    + assert (Hf' := Hf). rewrite register_fresh in H by exact Hf.
      inversion H; subst; clear H. constructor; simpl; trivial.
      * rewrite map_app. simpl. apply NoDup_snoc; trivial. apply next_id_fresh.
      * rewrite map_app. simpl. apply NoDup_snoc; trivial.
        intros Hin. apply in_map_iff in Hin. destruct Hin as (x & Hx & Hin).
        apply (find_none _ _ Hf') in Hin. apply orb_false_iff in Hin.
        destruct Hin as [Hin _]. rewrite Hx, String.eqb_refl in Hin.
        discriminate.
      * rewrite map_app. simpl. apply NoDup_snoc; trivial.
        intros Hin. apply in_map_iff in Hin. destruct Hin as (x & Hx & Hin).
        apply (find_none _ _ Hf') in Hin. apply orb_false_iff in Hin.
        destruct Hin as [_ Hin]. rewrite Hx, String.eqb_refl in Hin.
        discriminate.
  - rewrite create_note_eq in H. cbv zeta in H.
    destruct (share_id_taken _ (notes db)) eqn:Ht; inversion H; subst; clear H.
    + now constructor.
    + constructor; simpl; trivial.
      * rewrite map_app. simpl. apply NoDup_snoc; trivial. apply next_id_fresh.
      * erewrite share_ids_snoc by reflexivity. apply NoDup_snoc; trivial.
        now apply share_id_taken_false.
  - destruct (find (fun n => Z.eqb (Note.id n) note_id && owned_by cu n)
                   (notes db)) as [n|] eqn:Hf.
    + rewrite update_note_found with (n := n) in H by exact Hf.
      apply find_some in Hf. destruct Hf as [Hin _].
      destruct (net_change n (assign upd n)); inversion H; subst; clear H.
      * constructor; simpl; trivial.
        -- now rewrite replace_row_ids.
        -- now rewrite replace_row_share_ids with (old := n).
      * now constructor.
    + rewrite update_note_absent in H by exact Hf. inversion H; subst.
      now constructor.
  - destruct (find (fun n => Z.eqb (Note.id n) note_id && owned_by cu n)
                   (notes db)) as [n|] eqn:Hf.
    + rewrite delete_note_found with (n := n) in H by exact Hf.
      inversion H; subst; clear H. constructor; simpl; trivial.
      * now apply filter_keeps_note_ids.
      * now apply NoDup_share_ids_filter.
    + rewrite delete_note_absent in H by exact Hf. inversion H; subst.
      now constructor.
Qed.

Lemma reachable_wf db : reachable get_password_hash isoformat db -> wf db.
Proof.
  induction 1 as [|db db' _ IH Hreq].
  - constructor; simpl; constructor.
  - eapply request_wf; eauto.
Qed.

(** No request gives a stored note another share id, owner or creation
    time. *)
Lemma request_keeps_identity db db' :
  request get_password_hash isoformat db db' -> wf db ->
  forall n n', In n (notes db) -> In n' (notes db') ->
               Note.id n' = Note.id n ->
               Note.share_id n' = Note.share_id n
               /\ Note.owner_id n' = Note.owner_id n
               /\ Note.created_at n' = Note.created_at n.
Proof.
  intros Hreq Hwf n n' Hn Hn' Hid.
  assert (Hsame : In n' (notes db) ->
                  Note.share_id n' = Note.share_id n
                  /\ Note.owner_id n' = Note.owner_id n
                  /\ Note.created_at n' = Note.created_at n).
  { intros Hin.
    assert (n' = n) by (eapply NoDup_map_eq; eauto using wf_note_id).
    now subst. }
  destruct Hreq as [user env o db db' H|note cu env o db db' H
                    |note_id upd cu env o db db' H|note_id cu o db db' H].
  - apply Hsame.
    destruct (find (fun u => (User.username u =? UserCreate.username user)
                             || (User.email u =? UserCreate.email user))
                   (users db)) as [u|] eqn:Hf.
    + rewrite register_duplicate with (u := u) in H by exact Hf.
      now inversion H; subst.
    + rewrite register_fresh in H by exact Hf. now inversion H; subst.
  - rewrite create_note_eq in H. cbv zeta in H.
    destruct (share_id_taken _ (notes db)); inversion H; subst; clear H; auto.
    simpl in Hn'. apply in_app_iff in Hn'. destruct Hn' as [Hn'|[<-|[]]]; auto.
    exfalso. simpl in Hid.
    apply (next_id_fresh (map Note.id (notes db))).
    rewrite Hid. now apply in_map.
  - destruct (find (fun n => Z.eqb (Note.id n) note_id && owned_by cu n)
                   (notes db)) as [m|] eqn:Hf.
    + rewrite update_note_found with (n := m) in H by exact Hf.
      apply find_some in Hf. destruct Hf as [Hm _].
      destruct (net_change m (assign upd m)); inversion H; subst; clear H; auto.
      simpl in Hn'. apply in_replace_row in Hn'.
      destruct Hn' as [->|[Hn' _]]; auto.
      simpl in Hid.
      assert (m = n) by (eapply NoDup_map_eq; eauto using wf_note_id).
      subst m. simpl. auto.
    + rewrite update_note_absent in H by exact Hf. inversion H; subst. auto.
  - destruct (find (fun n => Z.eqb (Note.id n) note_id && owned_by cu n)
                   (notes db)) as [m|] eqn:Hf.
    + rewrite delete_note_found with (n := m) in H by exact Hf.
      inversion H; subst; clear H. simpl in Hn'.
      apply filter_In in Hn'. tauto.
    + rewrite delete_note_absent in H by exact Hf. inversion H; subst. auto.
Qed.

Lemma in_replace_row_iff (old n m : Note.t) (rows : list Note.t) :
  NoDup (map Note.id rows) -> In old rows -> Note.id n = Note.id old ->
  (In m (replace_row n rows)
   <-> m = n \/ (In m rows /\ Note.id m <> Note.id old)).
Proof.
  intros Hnd Hin Hid. split.
  - intros Hm. apply in_replace_row in Hm. rewrite Hid in Hm. exact Hm.
  - unfold replace_row. rewrite in_map_iff. intros [->|[Hm Hne]].
    + exists old. split; trivial. rewrite Hid. now rewrite Z.eqb_refl.
    + exists m. split; trivial. rewrite Hid.
      apply Z.eqb_neq in Hne. now rewrite Hne.
Qed.

(** C6 (amended).  PUT /notes/{id} by the owner answers with the response of
    a note in which each supplied field has the supplied value and every
    other field of the three, and the id, owner, share id and creation time,
    are as stored; [updated_at] becomes the instant of the request when a
    supplied value differs from the stored one and stays as stored
    otherwise.  That note is stored afterwards in the place of the old one,
    every other row is as it was, and the users are untouched.  No request
    changes the share id of a stored note. *)
Theorem update_changes_supplied_fields
        (db : DB) (n : Note.t) (current_user : User.t)
        (note_update : NoteUpdate.t) (env : Env) :
  wf db -> In n (notes db) ->
  Note.owner_id n = Some (User.id current_user) ->
  (exists n' db',
      update_note isoformat (Note.id n) note_update current_user env db
      = (Return (NoteResponse.mk (Note.id n') (Note.title n') (Note.content n')
                                 (Note.is_public n') (Note.share_id n')
                                 (isoformat (Note.created_at n'))
                                 (isoformat (Note.updated_at n'))),
         db')
      /\ Note.title n' = match NoteUpdate.title note_update with
                         | Some v => v | None => Note.title n end
      /\ Note.content n' = match NoteUpdate.content note_update with
                           | Some v => v | None => Note.content n end
      /\ Note.is_public n' = match NoteUpdate.is_public note_update with
                             | Some v => v | None => Note.is_public n end
      /\ Note.id n' = Note.id n
      /\ Note.owner_id n' = Note.owner_id n
      /\ Note.share_id n' = Note.share_id n
      /\ Note.created_at n' = Note.created_at n
      /\ Note.updated_at n'
         = (if (Note.title n =? Note.title n')
               && (Note.content n =? Note.content n')
               && Bool.eqb (Note.is_public n) (Note.is_public n')
            then Note.updated_at n else utcnow env)
      /\ users db' = users db
      /\ In n' (notes db')
      /\ (n' <> n -> ~ In n (notes db'))
      /\ (forall m, In m (notes db')
                    <-> m = n' \/ (In m (notes db) /\ Note.id m <> Note.id n))
      /\ map Note.id (notes db') = map Note.id (notes db))
  /\ (forall db1 db2 m m',
         wf db1 -> request get_password_hash isoformat db1 db2 ->
         In m (notes db1) -> In m' (notes db2) -> Note.id m' = Note.id m ->
         Note.share_id m' = Note.share_id m).
Proof.
  intros Hwf Hin Hown. split.
  - assert (Hf := find_owned_row db current_user n (wf_note_id Hwf) Hin).
    assert (Ho : owned_by current_user n = true)
      by (now apply col_eqZ_true).
    rewrite Ho in Hf.
    rewrite update_note_found with (n := n) by exact Hf.
    destruct (net_change n (assign note_update n)) eqn:Hnet.
    + set (n' := touch (utcnow env) (assign note_update n)).
      assert (Hiff : forall m, In m (replace_row n' (notes db))
                               <-> m = n' \/ (In m (notes db)
                                              /\ Note.id m <> Note.id n)).
      { intros m. apply in_replace_row_iff; trivial. apply (wf_note_id Hwf). }
      exists n', (mkDB (users db) (replace_row n' (notes db))).
      split; [reflexivity|].
      do 7 (split; [reflexivity|]).
      split.
      { unfold net_change in Hnet. apply negb_true_iff in Hnet.
        change (Note.title n') with (Note.title (assign note_update n)).
        change (Note.content n') with (Note.content (assign note_update n)).
        change (Note.is_public n') with (Note.is_public (assign note_update n)).
        rewrite Hnet. reflexivity. }
      split; [reflexivity|].
      split; [apply Hiff; now left|].
      split.
      { intros Hne Hn. apply Hiff in Hn. destruct Hn as [Hn|[_ Hn]]; auto. }
      split; [exact Hiff|].
      apply replace_row_ids.
    + exists n, db. split; [reflexivity|].
      apply net_change_false in Hnet. destruct Hnet as (Ht & Hc & Hp).
      split; [exact Ht|]. split; [exact Hc|]. split; [exact Hp|].
      do 4 (split; [reflexivity|]).
      split; [now rewrite !String.eqb_refl, Bool.eqb_reflx|].
      split; [reflexivity|]. split; [exact Hin|].
      split; [intros Hne; now elim Hne|].
      split; [|reflexivity].
      intros m. split.
      * intros Hm. destruct (Z.eq_dec (Note.id m) (Note.id n)) as [E|E].
        -- left. eapply NoDup_map_eq; eauto using wf_note_id.
        -- right. now split.
      * intros [->|[Hm _]]; trivial.
  - intros db1 db2 m m' Hwf1 Hreq Hm Hm' Hid.
    now destruct (request_keeps_identity Hreq Hwf1 m m' Hm Hm' Hid).
Qed.

(** Every request keeps the notes as [create_note] makes them: with a
    token of ten characters and with an owner. *)
Lemma request_keeps_tokens db db' :
  request get_password_hash isoformat db db' -> wf db ->
  Forall has_token_and_owner (notes db) ->
  Forall has_token_and_owner (notes db').
Proof.
  intros Hreq Hwf Hall. rewrite Forall_forall in *. intros n' Hn'.
  destruct Hreq as [user env o db db' H|note cu env o db db' H
                    |note_id upd cu env o db db' H|note_id cu o db db' H].
  - apply Hall.
    destruct (find (fun u => (User.username u =? UserCreate.username user)
                             || (User.email u =? UserCreate.email user))
                   (users db)) as [u|] eqn:Hf.
    + rewrite register_duplicate with (u := u) in H by exact Hf.
      now inversion H; subst.
    + rewrite register_fresh in H by exact Hf. now inversion H; subst.
  - rewrite create_note_eq in H. cbv zeta in H.
    destruct (share_id_taken _ (notes db)); inversion H; subst; clear H; auto.
    simpl in Hn'. apply in_app_iff in Hn'. destruct Hn' as [Hn'|[<-|[]]]; auto.
    split; simpl; eauto using generate_share_id_length.
  - destruct (find (fun n => Z.eqb (Note.id n) note_id && owned_by cu n)
                   (notes db)) as [m|] eqn:Hf.
    + rewrite update_note_found with (n := m) in H by exact Hf.
      apply find_some in Hf. destruct Hf as [Hm _].
      destruct (net_change m (assign upd m)); inversion H; subst; clear H; auto.
      simpl in Hn'. apply in_replace_row in Hn'.
      destruct Hn' as [->|[Hn' _]]; auto.
      exact (Hall m Hm).
    + rewrite update_note_absent in H by exact Hf. inversion H; subst. auto.
  - destruct (find (fun n => Z.eqb (Note.id n) note_id && owned_by cu n)
                   (notes db)) as [m|] eqn:Hf.
    + rewrite delete_note_found with (n := m) in H by exact Hf.
      inversion H; subst; clear H. simpl in Hn'.
      apply filter_In in Hn'. apply Hall. tauto.
    + rewrite delete_note_absent in H by exact Hf. inversion H; subst. auto.
Qed.

Lemma reachable_tokens db :
  reachable get_password_hash isoformat db ->
  Forall has_token_and_owner (notes db).
Proof.
  induction 1 as [|db db' Hr IH Hreq].
  - constructor.
  - eapply request_keeps_tokens; eauto using reachable_wf.
Qed.

(** C7 (amended).  When no stored note holds the generated share id,
    POST /notes stores and answers with a note that has the title and
    content of the request, [is_public] false, the generated share id and
    the caller as owner; when a stored note holds it, the insert is
    rejected, the error leaves the handler and the store is as before. *)
Theorem create_note_unless_collision
        (note : NoteCreate.t) (current_user : User.t) (env : Env) (db : DB) :
  ((forall m, In m (notes db) ->
              Note.share_id m <> Some (generate_share_id (urandom env))) ->
   exists n,
     create_note isoformat note current_user env db
     = (Return (note_response isoformat n), mkDB (users db) (notes db ++ [n]))
     /\ Note.title n = NoteCreate.title note
     /\ Note.content n = NoteCreate.content note
     /\ Note.is_public n = false
     /\ Note.share_id n = Some (generate_share_id (urandom env))
     /\ Note.owner_id n = Some (User.id current_user)
     /\ NoteResponse.title (note_response isoformat n) = NoteCreate.title note
     /\ NoteResponse.content (note_response isoformat n)
        = NoteCreate.content note
     /\ NoteResponse.is_public (note_response isoformat n) = false
     /\ NoteResponse.share_id (note_response isoformat n)
        = Some (generate_share_id (urandom env)))
  /\ ((exists m, In m (notes db)
                 /\ Note.share_id m = Some (generate_share_id (urandom env))) ->
      create_note isoformat note current_user env db
      = (Raise (IntegrityError "notes.share_id"), db)).
Proof.
  rewrite create_note_eq. cbv zeta. split.
  - intros Hfree.
    destruct (share_id_taken _ (notes db)) eqn:Ht.
    + exfalso. simpl in Ht. apply existsb_exists in Ht.
      destruct Ht as (m & Hm & Hs). apply col_eqs_true in Hs.
      exact (Hfree m Hm Hs).
    + eexists. split; [reflexivity|]. simpl. repeat split.
  - intros (m & Hm & Hs).
    destruct (share_id_taken _ (notes db)) eqn:Ht; trivial.
    exfalso. apply share_id_taken_false in Ht. apply Ht.
    apply in_share_ids. now exists m.
Qed.

(** C9.  A note that POST /notes has stored carries a share id of ten
    characters, the caller's id as owner, and [is_public] false; and every
    note of every store the service reaches has a share id of ten
    characters and an owner. *)
Theorem created_note_has_share_id_and_owner :
  (forall note current_user env db r db',
      create_note isoformat note current_user env db = (Return r, db') ->
      exists n s,
        notes db' = (notes db ++ [n])%list
        /\ r = note_response isoformat n
        /\ Note.share_id n = Some s /\ String.length s = 10
        /\ Note.owner_id n = Some (User.id current_user)
        /\ Note.is_public n = false)
  /\ (forall db n,
         reachable get_password_hash isoformat db -> In n (notes db) ->
         (exists s, Note.share_id n = Some s /\ String.length s = 10)
         /\ (exists o, Note.owner_id n = Some o)).
Proof.
  split.
  - intros note current_user env db r db' H.
    rewrite create_note_eq in H. cbv zeta in H.
    destruct (share_id_taken _ (notes db)); inversion H; subst; clear H.
    eexists. exists (generate_share_id (urandom env)). simpl.
    repeat split.
  - intros db n Hr Hn. apply reachable_tokens in Hr.
    rewrite Forall_forall in Hr. exact (Hr n Hn).
Qed.

Lemma find_duplicate_user user db u :
  In u (users db) ->
  User.username u = UserCreate.username user
  \/ User.email u = UserCreate.email user ->
  exists v,
    find (fun u => (User.username u =? UserCreate.username user)
                   || (User.email u =? UserCreate.email user)) (users db)
    = Some v.
Proof.
  intros Hin Hdup.
  destruct (find _ (users db)) as [v|] eqn:Hf; [now exists v|].
  apply (find_none _ _ Hf) in Hin. apply orb_false_iff in Hin.
  destruct Hin as [Hu He].
  apply String.eqb_neq in Hu. apply String.eqb_neq in He. tauto.
Qed.

Lemma find_no_duplicate_user user db :
  (forall u, In u (users db) ->
             User.username u <> UserCreate.username user
             /\ User.email u <> UserCreate.email user) ->
  find (fun u => (User.username u =? UserCreate.username user)
                 || (User.email u =? UserCreate.email user)) (users db)
  = None.
Proof.
  intros Hfresh.
  destruct (find _ (users db)) as [v|] eqn:Hf; trivial.
  apply find_some in Hf. destruct Hf as [Hin Hp].
  destruct (Hfresh v Hin) as [Hu He].
  apply String.eqb_neq in Hu. apply String.eqb_neq in He.
  rewrite Hu, He in Hp. discriminate.
Qed.

(** C3.  POST /register with the username or the email of a stored user
    raises the 400 and leaves the store as it was; with a username and an
    email that no stored user has it answers and appends one user, whose
    [hashed_password] is what [auth.get_password_hash] returned for the
    password; answer and store depend on the password through that hash
    only. *)
Theorem register_conflict_or_hashed (user : UserCreate.t) (env : Env) (db : DB) :
  (forall u, In u (users db) ->
             User.username u = UserCreate.username user
             \/ User.email u = UserCreate.email user ->
             register get_password_hash user env db
             = (Raise (HTTPException 400 "Username or email already registered"),
                db))
  /\ ((forall u, In u (users db) ->
                 User.username u <> UserCreate.username user
                 /\ User.email u <> UserCreate.email user) ->
      exists u',
        register get_password_hash user env db
        = (Return "User created successfully",
           mkDB (users db ++ [u']) (notes db))
        /\ User.username u' = UserCreate.username user
        /\ User.email u' = UserCreate.email user
        /\ User.hashed_password u'
           = get_password_hash (urandom env) (UserCreate.password user))
  /\ (forall password',
         get_password_hash (urandom env) password'
         = get_password_hash (urandom env) (UserCreate.password user) ->
         register get_password_hash
                  (UserCreate.mk (UserCreate.username user)
                                 (UserCreate.email user) password') env db
         = register get_password_hash user env db).
Proof.
  split; [|split].
  - intros u Hin Hdup.
    destruct (find_duplicate_user user db u Hin Hdup) as (v & Hv).
    now apply register_duplicate with (u := v).
  - intros Hfresh. apply find_no_duplicate_user in Hfresh.
    rewrite register_fresh by exact Hfresh.
    eexists. split; [reflexivity|]. simpl. auto.
  - intros password' Hhash.
    unfold register, register_check, register_create, bind, query_first,
      insert_user. simpl.
    now rewrite Hhash.
Qed.

(** C4 (amended).  When the query of [register] finds no user with the
    username or email, and by the time of its commit another request has
    stored one, the commit is rejected and the [IntegrityError] leaves the
    handler as it is: the answer is a 500, not the 400 of the query, and
    the handler has added nothing to the store. *)
Theorem register_race_is_not_caught
        (user : UserCreate.t) (env : Env) (others : DB -> DB) (db : DB) :
  (forall u, In u (users db) ->
             User.username u <> UserCreate.username user
             /\ User.email u <> UserCreate.email user) ->
  (exists u, In u (users (others db))
             /\ (User.username u = UserCreate.username user
                 \/ User.email u = UserCreate.email user)) ->
  exists column,
    register_interleaved get_password_hash user env others db
    = (Raise (IntegrityError column), others db)
    /\ status_of (@Raise string (IntegrityError column)) = 500%Z
    /\ (column = "users.username" \/ column = "users.email").
Proof.
  intros Hfresh (u & Hin & Hdup).
  apply find_no_duplicate_user in Hfresh.
  unfold register_interleaved, register_check, register_create, interfere,
    bind, query_first, ret, insert_user.
  rewrite Hfresh. simpl.
  destruct (existsb (fun r => User.username r =? UserCreate.username user)
                    (users (others db))) eqn:Eu.
  - exists "users.username". auto.
  - destruct (existsb (fun r => User.email r =? UserCreate.email user)
                      (users (others db))) eqn:Ee.
    + exists "users.email". auto.
    + exfalso. destruct Hdup as [Hdup|Hdup].
      * apply existsb_eqb_false in Eu. apply Eu. rewrite <- Hdup.
        now apply in_map.
      * apply existsb_eqb_false in Ee. apply Ee. rewrite <- Hdup.
        now apply in_map.
Qed.

(** Without interference the handler is [register] itself, and a query
    that finds no duplicate is followed by a commit that succeeds. *)
Lemma register_interleaved_id user env db :
  register_interleaved get_password_hash user env (fun d => d) db
  = register get_password_hash user env db.
Proof.
  unfold register_interleaved, register, interfere, bind.
  now destruct (register_check user db) as [[[]|e] db'].
Qed.

End Properties.

(** ** The share token generator *)

Lemma alphabet_length : length alphabet = 62.
Proof. reflexivity. Qed.

Lemma distinct_NoDup (l : list ascii) : distinct l = true -> NoDup l.
Proof.
  induction l as [|x l IH]; simpl; intros H; constructor.
  - apply andb_true_iff in H. destruct H as [H _].
    apply negb_true_iff in H. intros Hin.
    assert (existsb (Ascii.eqb x) l = true).
    { apply existsb_exists. exists x. split; trivial. apply Ascii.eqb_refl. }
    congruence.
  - apply IH. apply andb_true_iff in H. tauto.
Qed.

Lemma alphabet_NoDup : NoDup alphabet.
Proof. apply distinct_NoDup. vm_compute. reflexivity. Qed.

Lemma in_alphabet_existsb (c : ascii) :
  In c alphabet <-> existsb (Ascii.eqb c) alphabet = true.
Proof.
  rewrite existsb_exists. split.
  - intros H. exists c. split; trivial. apply Ascii.eqb_refl.
  - intros (x & Hx & E). apply Ascii.eqb_eq in E. now subst.
Qed.

Lemma in_alphabet_alnum (c : ascii) : In c alphabet <-> is_alnum c = true.
Proof.
  rewrite in_alphabet_existsb.
  assert (E : existsb (Ascii.eqb c) alphabet = is_alnum c)
    by (destruct c as [[] [] [] [] [] [] [] []]; vm_compute; reflexivity).
  now rewrite E.
Qed.

Lemma secrets_choice_in_alphabet (r : nat) : In (secrets_choice alphabet r) alphabet.
Proof.
  unfold secrets_choice. apply nth_In. rewrite alphabet_length.
  apply Nat.mod_upper_bound. discriminate.
Qed.

Lemma generate_share_id_chars (rand : nat -> nat) :
  list_ascii_of_string (generate_share_id rand)
  = map (fun i => secrets_choice alphabet (rand i)) (seq 0 10).
Proof. unfold generate_share_id. apply list_ascii_of_string_of_list_ascii. Qed.

Lemma position_nth (c : ascii) (l : list ascii) :
  In c l -> position c l < length l /\ nth (position c l) l Ascii.zero = c.
Proof.
  induction l as [|x l IH]; simpl; [contradiction|].
  intros H. destruct (Ascii.eqb x c) eqn:E.
  - apply Ascii.eqb_eq in E. split; [lia|trivial].
  - destruct H as [->|H]; [rewrite Ascii.eqb_refl in E; discriminate|].
    destruct (IH H). split; [lia|trivial].
Qed.

Lemma map_nth_seq {A} (l : list A) (d : A) :
  map (fun i => nth i l d) (seq 0 (length l)) = l.
Proof.
  apply nth_ext with (d := d) (d' := d).
  - now rewrite length_map, length_seq.
  - intros n Hn. rewrite length_map, length_seq in Hn.
    rewrite nth_indep with (d' := nth 0 l d) by (now rewrite length_map, length_seq).
    rewrite (map_nth (fun i => nth i l d)).
    now rewrite seq_nth.
Qed.

Lemma string_length_chars (t : string) :
  length (list_ascii_of_string t) = String.length t.
Proof. induction t as [|c t IH]; simpl; congruence. Qed.

(** The token as a function of the ten numbers [randbelow] returned: it has
    ten characters, all of the alphabet; two vectors of numbers give the same
    token only when they agree below 62, and every string of ten alphabet
    characters is the token of one. *)
Theorem generate_share_id_alphanumeric :
  length alphabet = 62
  /\ NoDup alphabet
  /\ (forall c, In c alphabet <-> is_alnum c = true)
  /\ (forall rand,
         String.length (generate_share_id rand) = 10
         /\ Forall (fun c => In c alphabet)
                   (list_ascii_of_string (generate_share_id rand)))
  /\ (forall rand rand',
         generate_share_id rand = generate_share_id rand'
         <-> forall i, i < 10 -> rand i mod 62 = rand' i mod 62)
  /\ (forall t,
         String.length t = 10 ->
         Forall (fun c => In c alphabet) (list_ascii_of_string t) ->
         exists rand, (forall i, rand i < 62) /\ generate_share_id rand = t).
Proof.
  split; [exact alphabet_length|].
  split; [exact alphabet_NoDup|].
  split; [exact in_alphabet_alnum|].
  split; [|split].
  - intros rand. split; [reflexivity|].
    rewrite generate_share_id_chars. apply Forall_forall. intros c Hc.
    apply in_map_iff in Hc. destruct Hc as (i & <- & _).
    apply secrets_choice_in_alphabet.
  - intros rand rand'. split.
    + intros H i Hi.
      apply (f_equal list_ascii_of_string) in H.
      rewrite !generate_share_id_chars in H.
      assert (Hext := proj1 map_ext_in_iff H i).
      assert (Hin : In i (seq 0 10)) by (apply in_seq; lia).
      specialize (Hext Hin). unfold secrets_choice in Hext.
      rewrite alphabet_length in Hext.
      apply (proj1 (NoDup_nth alphabet Ascii.zero) alphabet_NoDup);
        trivial; rewrite alphabet_length; apply Nat.mod_upper_bound; discriminate.
    + intros H. unfold generate_share_id. f_equal.
      apply map_ext_in. intros i Hi. apply in_seq in Hi.
      unfold secrets_choice. rewrite alphabet_length.
      rewrite H by lia. reflexivity.
  - intros t Hlen Hall.
    exists (fun i => position (nth i (list_ascii_of_string t) Ascii.zero) alphabet
                     mod 62).
    split.
    + intros i. apply Nat.mod_upper_bound. discriminate.
    + transitivity (string_of_list_ascii (list_ascii_of_string t));
        [|apply string_of_list_ascii_of_string].
      unfold generate_share_id. f_equal.
      etransitivity; [|apply (map_nth_seq (list_ascii_of_string t) Ascii.zero)].
      rewrite string_length_chars, Hlen.
      apply map_ext_in. intros i Hi. apply in_seq in Hi.
      assert (Hc : In (nth i (list_ascii_of_string t) Ascii.zero) alphabet).
      { rewrite Forall_forall in Hall. apply Hall. apply nth_In.
        rewrite string_length_chars. lia. }
      apply position_nth in Hc. destruct Hc as [Hlt Hnth].
      rewrite alphabet_length in Hlt.
      unfold secrets_choice. rewrite alphabet_length.
      rewrite Nat.Div0.mod_mod.
      rewrite Nat.mod_small by exact Hlt. exact Hnth.
Qed.

(** ** The authenticator *)

Lemma verify_hash_password (digest : string -> string -> string)
      (salt plaintext : string) :
  verify_password digest plaintext (hash_password digest salt plaintext) = true.
Proof. unfold verify_password, hash_password. simpl. apply String.eqb_refl. Qed.

(** Another plaintext verifies against a hash exactly when the transform
    sends both to the same result under the salt of the hash. *)
Lemma verify_other_password (digest : string -> string -> string)
      (salt p1 p2 : string) :
  verify_password digest p1 (hash_password digest salt p2) = true
  <-> digest salt p1 = digest salt p2.
Proof. unfold verify_password, hash_password. simpl. apply String.eqb_eq. Qed.

(** ** The example store *)

Lemma demo_db_reachable : reachable demo_hash demo_isoformat demo_db.
Proof.
  apply reach_request with (db := mkDB [alice; bob] [grocery_created]).
  apply reach_request with (db := mkDB [alice; bob] []).
  apply reach_request with (db := mkDB [alice] []).
  apply reach_request with (db := empty_db).
  - constructor.
  - eapply req_register
      with (user := UserCreate.mk "alice" "a@x.com" "pw123") (env := mkEnv 0 zeros).
    vm_compute. reflexivity.
  - eapply req_register
      with (user := UserCreate.mk "bob" "b@x.com" "hunter2") (env := mkEnv 0 zeros).
    vm_compute. reflexivity.
  - eapply req_create
      with (note := NoteCreate.mk "Grocery" "milk") (current_user := alice)
           (env := mkEnv 100 zeros).
    vm_compute. reflexivity.
  - eapply req_update
      with (note_id := 1%Z) (note_update := NoteUpdate.mk None None (Some true))
           (current_user := alice) (env := mkEnv 150 zeros).
    vm_compute. reflexivity.
Qed.

Lemma demo_db_wf : wf demo_db.
Proof. exact (reachable_wf demo_db_reachable). Qed.

(** ** The theorems at the example store *)

(** Bob, with his own valid identity, on Alice's note. *)
Lemma foreign_note_is_not_found_witness :
  wf demo_db /\ In grocery (notes demo_db)
  /\ Note.owner_id grocery = Some 1%Z /\ 1%Z <> User.id bob
  /\ update_note demo_isoformat 1 (NoteUpdate.mk (Some "mine") None None) bob
                 (mkEnv 200 zeros) demo_db
     = (Raise (HTTPException 404 "Note not found"), demo_db)
  /\ delete_note 1 bob demo_db
     = (Raise (HTTPException 404 "Note not found"), demo_db).
Proof.
  assert (Hin : In grocery (notes demo_db)) by (simpl; auto).
  assert (Hne : 1%Z <> User.id bob) by (simpl; lia).
  split; [exact demo_db_wf|]. split; [exact Hin|].
  split; [reflexivity|]. split; [exact Hne|].
  exact (@foreign_note_is_not_found demo_isoformat demo_db grocery 1%Z bob
           (NoteUpdate.mk (Some "mine") None None) (mkEnv 200 zeros)
           demo_db_wf Hin eq_refl Hne).
Defined.

(** No row of the example store has id 7. *)
Lemma not_found_leaves_store_witness :
  (forall n, In n (notes demo_db) -> Note.id n = 7%Z ->
             Note.owner_id n <> Some (User.id alice))
  /\ update_note demo_isoformat 7 (NoteUpdate.mk None (Some "eggs") None) alice
                 (mkEnv 200 zeros) demo_db
     = (Raise (HTTPException 404 "Note not found"), demo_db)
  /\ delete_note 7 alice demo_db
     = (Raise (HTTPException 404 "Note not found"), demo_db).
Proof.
  assert (H : forall n, In n (notes demo_db) -> Note.id n = 7%Z ->
                        Note.owner_id n <> Some (User.id alice)).
  { intros n [<-|[]] Hid. simpl in Hid. lia. }
  split; [exact H|].
  exact (proj2 (proj2 (@not_found_leaves_store demo_isoformat 7%Z
                         (NoteUpdate.mk None (Some "eggs") None) alice
                         (mkEnv 200 zeros) demo_db)) H).
Defined.


(** Alice changes the content of her note at instant 200. *)
Lemma update_changes_supplied_fields_witness :
  wf demo_db /\ In grocery (notes demo_db)
  /\ Note.owner_id grocery = Some (User.id alice)
  /\ exists n' db',
      update_note demo_isoformat 1 (NoteUpdate.mk None (Some "eggs") None) alice
                  (mkEnv 200 zeros) demo_db
      = (Return (NoteResponse.mk (Note.id n') (Note.title n') (Note.content n')
                                 (Note.is_public n') (Note.share_id n')
                                 (demo_isoformat (Note.created_at n'))
                                 (demo_isoformat (Note.updated_at n'))),
         db')
      /\ Note.title n' = "Grocery" /\ Note.content n' = "eggs"
      /\ Note.share_id n' = Some "aaaaaaaaaa"
      /\ Note.updated_at n' = 200%Z
      /\ In n' (notes db') /\ ~ In grocery (notes db').
Proof.
  assert (Hin : In grocery (notes demo_db)) by (simpl; auto).
  split; [exact demo_db_wf|]. split; [exact Hin|]. split; [reflexivity|].
  destruct (proj1 (@update_changes_supplied_fields demo_hash demo_isoformat
                     demo_db grocery alice
                     (NoteUpdate.mk None (Some "eggs") None) (mkEnv 200 zeros)
                     demo_db_wf Hin eq_refl))
    as (n' & db' & Hrun & Ht & Hc & _ & _ & _ & Hs & _ & Hu & _ & Hstored
        & Hgone & _).
  simpl in Ht, Hc, Hs.
  exists n', db'. split; [exact Hrun|]. split; [exact Ht|]. split; [exact Hc|].
  split; [exact Hs|]. split.
  - rewrite Hu, Ht, Hc. reflexivity.
  - split; [exact Hstored|]. apply Hgone. intros E. rewrite E in Hc.
    discriminate.
Defined.

(** Bob's first note: the random source yields ones, the token is ten b's,
    which no stored note holds. *)
Lemma create_note_unless_collision_witness :
  (forall m, In m (notes demo_db) ->
             Note.share_id m <> Some (generate_share_id (fun _ => 1)))
  /\ exists n,
      create_note demo_isoformat (NoteCreate.mk "Todo" "eggs") bob
                  (mkEnv 300 (fun _ => 1)) demo_db
      = (Return (note_response demo_isoformat n),
         mkDB (users demo_db) (notes demo_db ++ [n]))
      /\ Note.share_id n = Some "bbbbbbbbbb"
      /\ Note.owner_id n = Some 2%Z
      /\ Note.is_public n = false.
Proof.
  assert (H : forall m, In m (notes demo_db) ->
                        Note.share_id m <> Some (generate_share_id (fun _ => 1))).
  { intros m [<-|[]]. vm_compute. discriminate. }
  split; [exact H|].
  destruct (proj1 (@create_note_unless_collision demo_isoformat
                     (NoteCreate.mk "Todo" "eggs") bob (mkEnv 300 (fun _ => 1))
                     demo_db) H)
    as (n & Hrun & _ & _ & Hp & Hs & Ho & _).
  exists n. split; [exact Hrun|]. split; [exact Hs|]. split; [exact Ho|].
  exact Hp.
Defined.

Lemma created_note_has_share_id_and_owner_witness :
  reachable demo_hash demo_isoformat demo_db /\ In grocery (notes demo_db)
  /\ (exists s, Note.share_id grocery = Some s /\ String.length s = 10)
  /\ (exists o, Note.owner_id grocery = Some o)
  /\ create_note demo_isoformat (NoteCreate.mk "Todo" "eggs") bob
                 (mkEnv 300 (fun _ => 1)) demo_db
     = (Return (note_response demo_isoformat
                  (Note.mk 2 "Todo" "eggs" (Some 2%Z) false (Some "bbbbbbbbbb")
                           300 300)),
        mkDB [alice; bob]
             [grocery;
              Note.mk 2 "Todo" "eggs" (Some 2%Z) false (Some "bbbbbbbbbb") 300 300])
  /\ exists n s,
      Note.share_id n = Some s /\ String.length s = 10
      /\ Note.owner_id n = Some (User.id bob) /\ Note.is_public n = false.
Proof.
  assert (Hin : In grocery (notes demo_db)) by (simpl; auto).
  assert (Hrun : create_note demo_isoformat (NoteCreate.mk "Todo" "eggs") bob
                             (mkEnv 300 (fun _ => 1)) demo_db
                 = (Return (note_response demo_isoformat
                              (Note.mk 2 "Todo" "eggs" (Some 2%Z) false
                                       (Some "bbbbbbbbbb") 300 300)),
                    mkDB [alice; bob]
                         [grocery;
                          Note.mk 2 "Todo" "eggs" (Some 2%Z) false
                                  (Some "bbbbbbbbbb") 300 300]))
    by reflexivity.
  destruct (@created_note_has_share_id_and_owner demo_hash demo_isoformat)
    as [Hcreate Hreach].
  split; [exact demo_db_reachable|]. split; [exact Hin|].
  destruct (Hreach demo_db grocery demo_db_reachable Hin) as [Hs Ho].
  split; [exact Hs|]. split; [exact Ho|]. split; [exact Hrun|].
  destruct (Hcreate _ _ _ _ _ _ Hrun) as (n & s & _ & _ & Hsn & Hlen & Hown & Hp).
  exists n, s. auto.
Defined.

(** The username of Alice with a new email, and a new user. *)
Lemma register_conflict_or_hashed_witness :
  In alice (users demo_db)
  /\ register demo_hash (UserCreate.mk "alice" "new@x.com" "pw") (mkEnv 5 zeros)
              demo_db
     = (Raise (HTTPException 400 "Username or email already registered"), demo_db)
  /\ (forall u, In u (users demo_db) ->
                User.username u <> "carol" /\ User.email u <> "c@x.com")
  /\ exists u',
      register demo_hash carol (mkEnv 5 zeros) demo_db
      = (Return "User created successfully",
         mkDB (users demo_db ++ [u']) (notes demo_db))
      /\ User.hashed_password u' = demo_hash zeros "pw".
Proof.
  assert (Hin : In alice (users demo_db)) by (simpl; auto).
  assert (Hfresh : forall u, In u (users demo_db) ->
                             User.username u <> "carol" /\ User.email u <> "c@x.com").
  { intros u [<-|[<-|[]]]; split; discriminate. }
  destruct (@register_conflict_or_hashed demo_hash
              (UserCreate.mk "alice" "new@x.com" "pw") (mkEnv 5 zeros) demo_db)
    as (Hdup & _).
  destruct (@register_conflict_or_hashed demo_hash carol (mkEnv 5 zeros) demo_db)
    as (_ & Hnew & _).
  split; [exact Hin|]. split; [exact (Hdup alice Hin (or_introl eq_refl))|].
  split; [exact Hfresh|].
  destruct (Hnew Hfresh) as (u' & Hrun & _ & _ & Hh).
  exists u'. split; [exact Hrun|exact Hh].
Defined.

(** Carol's registration, overtaken by another one with her username. *)
Lemma register_race_is_not_caught_witness :
  (forall u, In u (users demo_db) ->
             User.username u <> "carol" /\ User.email u <> "c@x.com")
  /\ (exists u, In u (users (racing_register demo_db))
                /\ User.username u = "carol")
  /\ exists column,
      register_interleaved demo_hash carol (mkEnv 10 zeros) racing_register demo_db
      = (Raise (IntegrityError column), racing_register demo_db).
Proof.
  assert (Hfresh : forall u, In u (users demo_db) ->
                             User.username u <> "carol" /\ User.email u <> "c@x.com").
  { intros u [<-|[<-|[]]]; split; discriminate. }
  assert (Hin : In (User.mk 3 "carol" "c2@x.com" (demo_hash zeros "pw2") 9)
                   (users (racing_register demo_db))).
  { vm_compute. auto. }
  split; [exact Hfresh|]. split; [eexists; split; [exact Hin|reflexivity]|].
  destruct (@register_race_is_not_caught demo_hash carol (mkEnv 10 zeros)
              racing_register demo_db Hfresh
              (ex_intro _ _ (conj Hin (or_introl eq_refl))))
    as (column & Hrun & _).
  exists column. exact Hrun.
Defined.

Lemma generate_share_id_alphanumeric_witness :
  String.length "aaaaaaaaaa" = 10
  /\ Forall (fun c => In c alphabet) (list_ascii_of_string "aaaaaaaaaa")
  /\ exists rand, (forall i, rand i < 62) /\ generate_share_id rand = "aaaaaaaaaa".
Proof.
  assert (Hall : Forall (fun c => In c alphabet) (list_ascii_of_string "aaaaaaaaaa")).
  { repeat constructor. }
  split; [reflexivity|]. split; [exact Hall|].
  exact (proj2 (proj2 (proj2 (proj2 (proj2 generate_share_id_alphanumeric))))
               "aaaaaaaaaa" eq_refl Hall).
Defined.

(** ** Where the handlers part from what is said of them *)

(** Against C4 as stated.  The query of Carol's registration finds nobody, the
    commit meets the username stored in between, and what leaves the handler
    is the [IntegrityError], a 500, not the 400 of the query. *)
Lemma register_race_raises_integrity_error :
  register_check carol demo_db = (Return tt, demo_db)
  /\ register_interleaved demo_hash carol (mkEnv 10 zeros) racing_register demo_db
     = (Raise (IntegrityError "users.username"), racing_register demo_db)
  /\ status_of (fst (register_interleaved demo_hash carol (mkEnv 10 zeros)
                                          racing_register demo_db)) = 500%Z
  /\ fst (register_interleaved demo_hash carol (mkEnv 10 zeros)
                               racing_register demo_db)
     <> Raise (HTTPException 400 "Username or email already registered").
Proof.
  split; [reflexivity|]. split; [reflexivity|]. split; [reflexivity|].
  vm_compute. discriminate.
Qed.

(** Against C6 as stated.  A PUT with an empty body by the owner at instant
    200 answers with the note as stored: [updated_at] is still 150. *)
Lemma update_without_change_keeps_updated_at :
  update_note demo_isoformat 1 (NoteUpdate.mk None None None) alice
              (mkEnv 200 zeros) demo_db
  = (Return (note_response demo_isoformat grocery), demo_db)
  /\ notes demo_db = [grocery]
  /\ Note.updated_at grocery = 150%Z
  /\ Note.updated_at grocery <> utcnow (mkEnv 200 zeros).
Proof.
  split; [reflexivity|]. split; [reflexivity|]. split; [reflexivity|].
  simpl. lia.
Qed.

(** Against C7 as stated.  The random source yields zeros, the token is ten
    a's, which Alice's note holds: POST /notes returns no note. *)
Lemma create_note_share_id_collision :
  generate_share_id zeros = "aaaaaaaaaa"
  /\ create_note demo_isoformat (NoteCreate.mk "Todo" "eggs") bob
                 (mkEnv 300 zeros) demo_db
     = (Raise (IntegrityError "notes.share_id"), demo_db)
  /\ forall r db',
      create_note demo_isoformat (NoteCreate.mk "Todo" "eggs") bob
                  (mkEnv 300 zeros) demo_db <> (Return r, db').
Proof.
  split; [reflexivity|]. split; [reflexivity|].
  intros r db'. vm_compute. discriminate.
Qed.

(** ** Further properties of the handlers *)

Lemma find_app_none {A} (p : A -> bool) (l l' : list A) :
  find p l = None -> find p (l ++ l') = find p l'.
Proof.
  induction l as [|x l IH]; simpl; trivial.
  destruct (p x); [discriminate|exact IH].
Qed.

Lemma find_id_at_next (current_user : User.t) (rows : list Note.t) :
  find (fun r => Z.eqb (Note.id r) (next_id (map Note.id rows))
                 && owned_by current_user r) rows = None.
Proof.
  destruct (find _ rows) as [r|] eqn:Hf; trivial.
  apply find_some in Hf. destruct Hf as [Hin Hp].
  apply andb_true_iff in Hp. destruct Hp as [Hid _]. apply Z.eqb_eq in Hid.
  exfalso. apply (next_id_fresh (map Note.id rows)).
  rewrite <- Hid. now apply in_map.
Qed.

Lemma filter_below_next (rows : list Note.t) :
  filter (fun r => negb (Z.eqb (Note.id r) (next_id (map Note.id rows)))) rows
  = rows.
Proof.
  apply forallb_filter_id. apply forallb_forall. intros r Hr.
  apply negb_true_iff, Z.eqb_neq. intros Hid.
  apply (next_id_fresh (map Note.id rows)). rewrite <- Hid. now apply in_map.
Qed.

Lemma filter_out_one (n : Note.t) (rows : list Note.t) :
  NoDup (map Note.id rows) -> In n rows ->
  S (length (filter (fun r => negb (Z.eqb (Note.id r) (Note.id n))) rows))
  = length rows.
Proof.
  induction rows as [|x rows IH]; simpl; intros Hnd Hin; [contradiction|].
  inversion Hnd as [|? ? Hx Hrows]; subst.
  destruct Hin as [->|Hin].
  - rewrite Z.eqb_refl. simpl. f_equal.
    f_equal. apply forallb_filter_id. apply forallb_forall. intros r Hr.
    apply negb_true_iff, Z.eqb_neq. intros Hid. apply Hx. rewrite <- Hid.
    now apply in_map.
  - destruct (Z.eqb (Note.id x) (Note.id n)) eqn:E.
    + exfalso. apply Z.eqb_eq in E. apply Hx. rewrite E. now apply in_map.
    + simpl. f_equal. now apply IH.
Qed.

Lemma assign_settles (note_update : NoteUpdate.t) (now : Z) (n : Note.t) :
  net_change (touch now (assign note_update n))
             (assign note_update (touch now (assign note_update n))) = false.
Proof.
  unfold net_change, touch, assign. simpl.
  destruct note_update as [[t|] [c|] [p|]]; simpl;
    rewrite !String.eqb_refl, Bool.eqb_reflx; reflexivity.
Qed.

Section Further.

Variable get_password_hash : (nat -> nat) -> string -> string.
Variable isoformat : Z -> string.
Variable auth_verify_password : string -> string -> bool.
Variable create_access_token : Env -> list (string * string) -> string.

(** X1.  GET /notes answers with the responses of exactly the stored notes
    whose owner is the caller, none of another owner or of no owner, and
    leaves the store as it was. *)
Theorem get_notes_lists_own_notes (current_user : User.t) (db : DB) :
  exists rs,
    get_notes isoformat current_user db = (Return rs, db)
    /\ forall r,
        In r rs
        <-> exists n, In n (notes db)
                      /\ Note.owner_id n = Some (User.id current_user)
                      /\ r = note_response isoformat n.
Proof using Type.
  unfold get_notes, bind, query_all, ret. eexists. split; [reflexivity|].
  intros r. rewrite in_map_iff. split.
  - intros (n & Hr & Hn). apply filter_In in Hn. destruct Hn as [Hn Ho].
    apply col_eqZ_true in Ho. exists n. auto.
  - intros (n & Hn & Ho & Hr). exists n. split; [auto|].
    apply filter_In. split; trivial. now apply col_eqZ_true.
Qed.

(** X2.  DELETE /notes/{id} by the owner of a stored note answers with the
    message and leaves the users as they were and the notes without that
    note and with every other one: one row fewer, the constraints of the
    schema still holding. *)
Theorem delete_note_removes_that_note
        (db : DB) (n : Note.t) (current_user : User.t) :
  wf db -> In n (notes db) ->
  Note.owner_id n = Some (User.id current_user) ->
  exists db',
    delete_note (Note.id n) current_user db
    = (Return "Note deleted successfully", db')
    /\ users db' = users db
    /\ (forall m, In m (notes db') <-> In m (notes db) /\ m <> n)
    /\ S (length (notes db')) = length (notes db)
    /\ wf db'.
Proof using Type.
  intros Hwf Hin Hown.
  assert (Hf := find_owned_row db current_user n (wf_note_id Hwf) Hin).
  assert (Ho : owned_by current_user n = true) by (now apply col_eqZ_true).
  rewrite Ho in Hf.
  assert (Hrun := delete_note_found (Note.id n) current_user db Hf).
  eexists. split; [exact Hrun|]. simpl. split; [reflexivity|].
  split; [|split].
  - intros m. rewrite filter_In. split.
    + intros [Hm Hid]. split; trivial. intros ->.
      rewrite Z.eqb_refl in Hid. discriminate.
    + intros [Hm Hne]. split; trivial. apply negb_true_iff, Z.eqb_neq.
      intros Hid. apply Hne. eapply NoDup_map_eq; eauto using wf_note_id.
  - apply filter_out_one; trivial. apply (wf_note_id Hwf).
  - apply (@request_wf (fun _ p => p) (fun _ => EmptyString) db);
      [|exact Hwf].
    eapply req_delete with (o := Return "Note deleted successfully").
    exact Hrun.
Qed.

(** X3.  Once the owner has deleted a note, PUT and DELETE on its id and the
    shared read of its share id all answer 404. *)
Theorem deleted_note_is_gone
        (db : DB) (n : Note.t) (current_user : User.t) (r : string) (db' : DB) :
  wf db -> In n (notes db) ->
  delete_note (Note.id n) current_user db = (Return r, db') ->
  (forall caller note_update env,
      update_note isoformat (Note.id n) note_update caller env db'
      = (Raise (HTTPException 404 "Note not found"), db'))
  /\ (forall caller,
         delete_note (Note.id n) caller db'
         = (Raise (HTTPException 404 "Note not found"), db'))
  /\ (forall s, Note.share_id n = Some s ->
                get_shared_note isoformat s db'
                = (Raise (HTTPException 404 "Note not found or not public"), db')).
Proof using Type.
  intros Hwf Hin Hrun.
  assert (Hf := find_owned_row db current_user n (wf_note_id Hwf) Hin).
  destruct (owned_by current_user n).
  - rewrite delete_note_found with (n := n) in Hrun by exact Hf.
    inversion Hrun; subst; clear Hrun.
    assert (Hgone : forall caller,
               find (fun m => Z.eqb (Note.id m) (Note.id n) && owned_by caller m)
                    (filter (fun m => negb (Z.eqb (Note.id m) (Note.id n)))
                            (notes db)) = None).
    { intros caller. destruct (find _ (filter _ (notes db))) as [m|] eqn:Hm; trivial.
      apply find_some in Hm. destruct Hm as [Hm Hp].
      apply filter_In in Hm. destruct Hm as [_ Hne].
      apply andb_true_iff in Hp. destruct Hp as [Hid _].
      rewrite Hid in Hne. discriminate. }
    split; [|split].
    + intros caller note_update env. apply update_note_absent. apply Hgone.
    + intros caller. apply delete_note_absent. apply Hgone.
    + intros s Hs. apply get_shared_note_absent, no_public_row. simpl.
      intros m Hm Hms. exfalso. apply filter_In in Hm. destruct Hm as [Hm Hne].
      assert (m = n) by (eapply share_id_unique; eauto using wf_share_id).
      subst m. rewrite Z.eqb_refl in Hne. discriminate.
  - rewrite delete_note_absent in Hrun by exact Hf. discriminate.
Qed.

(** X4.  After POST /notes has answered, GET /notes of the caller is what it
    was before with the new note's response added at the end, and GET /notes
    of any user with another id is what it was. *)
Theorem created_note_is_listed
        (note : NoteCreate.t) (current_user : User.t) (env : Env)
        (db : DB) (r : NoteResponse.t) (db' : DB) :
  create_note isoformat note current_user env db = (Return r, db') ->
  (exists rs,
      get_notes isoformat current_user db = (Return rs, db)
      /\ get_notes isoformat current_user db' = (Return (rs ++ [r])%list, db'))
  /\ (forall other,
         User.id other <> User.id current_user ->
         fst (get_notes isoformat other db') = fst (get_notes isoformat other db)).
Proof using Type.
  intros Hrun. rewrite create_note_eq in Hrun. cbv zeta in Hrun.
  destruct (share_id_taken _ (notes db)); inversion Hrun; subst; clear Hrun.
  unfold get_notes, bind, query_all, ret. simpl. split.
  - eexists. split; [reflexivity|].
    rewrite filter_app, map_app. simpl. unfold owned_by at 2. simpl.
    now rewrite Z.eqb_refl.
  - intros other Hne. rewrite filter_app. simpl. unfold owned_by at 2. simpl.
    apply not_eq_sym, Z.eqb_neq in Hne. rewrite Hne. now rewrite app_nil_r.
Qed.

(** X5.  The note that POST /notes has just stored is not readable through
    its share id: the shared read answers 404 until an update makes the note
    public. *)
Theorem created_note_is_private
        (note : NoteCreate.t) (current_user : User.t) (env : Env)
        (db : DB) (r : NoteResponse.t) (db' : DB) :
  create_note isoformat note current_user env db = (Return r, db') ->
  NoteResponse.is_public r = false
  /\ exists s,
      NoteResponse.share_id r = Some s
      /\ get_shared_note isoformat s db'
         = (Raise (HTTPException 404 "Note not found or not public"), db').
Proof using Type.
  intros Hrun. rewrite create_note_eq in Hrun. cbv zeta in Hrun.
  destruct (share_id_taken _ (notes db)) eqn:Ht; inversion Hrun; subst; clear Hrun.
  split; [reflexivity|]. eexists. split; [reflexivity|].
  apply get_shared_note_absent, no_public_row. simpl.
  intros m Hm Hs. apply in_app_iff in Hm. destruct Hm as [Hm|[<-|[]]].
  - exfalso. apply share_id_taken_false in Ht. apply Ht.
    apply in_share_ids. now exists m.
  - reflexivity.
Qed.

(** X6.  When the owner's update sets [is_public] to true, the shared read of
    the note's share id answers with the title, content and creation time of
    the update's response. *)
Theorem published_note_is_readable
        (db : DB) (n : Note.t) (s : string) (current_user : User.t)
        (note_update : NoteUpdate.t) (env : Env) :
  wf db -> In n (notes db) ->
  Note.owner_id n = Some (User.id current_user) ->
  Note.share_id n = Some s ->
  NoteUpdate.is_public note_update = Some true ->
  exists r db',
    update_note isoformat (Note.id n) note_update current_user env db
    = (Return r, db')
    /\ get_shared_note isoformat s db'
       = (Return (SharedNote.mk (NoteResponse.title r) (NoteResponse.content r)
                                (NoteResponse.created_at r)), db').
Proof using Type.
  intros Hwf Hin Hown Hs Hup.
  assert (Hf := find_owned_row db current_user n (wf_note_id Hwf) Hin).
  assert (Ho : owned_by current_user n = true) by (now apply col_eqZ_true).
  rewrite Ho in Hf.
  assert (Hrun := update_note_found isoformat (Note.id n) note_update
                                    current_user env db Hf).
  destruct (net_change n (assign note_update n)) eqn:Hnet.
  - cbv zeta in Hrun. do 2 eexists. split; [exact Hrun|].
    set (n' := touch (utcnow env) (assign note_update n)) in *.
    assert (Hwf' : wf (mkDB (users db) (replace_row n' (notes db)))).
    { apply (@request_wf (fun _ p => p) isoformat db); [|exact Hwf].
      eapply req_update. exact Hrun. }
    apply get_shared_note_found.
    apply find_shared_row; simpl; trivial.
    + apply (wf_share_id Hwf').
    + unfold replace_row. apply in_map_iff. exists n. split; trivial.
      subst n'. simpl. now rewrite Z.eqb_refl.
    + now rewrite Hup.
  - do 2 eexists. split; [exact Hrun|].
    apply net_change_false in Hnet. destruct Hnet as (_ & _ & Hp).
    simpl in Hp. rewrite Hup in Hp.
    apply get_shared_note_found.
    apply find_shared_row; trivial. apply (wf_share_id Hwf).
Qed.

(** X7.  An update that has answered, sent again, answers the same and
    changes nothing more, at whatever later instant: [updated_at] is not
    refreshed by the repetition. *)
Theorem update_note_again_changes_nothing
        (db : DB) (note_id : Z) (note_update : NoteUpdate.t)
        (current_user : User.t) (env : Env) (r : NoteResponse.t) (db' : DB) :
  wf db ->
  update_note isoformat note_id note_update current_user env db = (Return r, db') ->
  forall env',
    update_note isoformat note_id note_update current_user env' db'
    = (Return r, db').
Proof using Type.
  intros Hwf Hrun env'.
  destruct (find (fun n => Z.eqb (Note.id n) note_id && owned_by current_user n)
                 (notes db)) as [n|] eqn:Hf.
  - assert (Hrun' := Hrun).
    rewrite update_note_found with (n := n) in Hrun by exact Hf.
    assert (Hfn := Hf). apply find_some in Hfn. destruct Hfn as [Hin Hp].
    apply andb_true_iff in Hp. destruct Hp as [Hid Hown].
    apply Z.eqb_eq in Hid.
    destruct (net_change n (assign note_update n)) eqn:Hnet.
    + cbv zeta in Hrun. inversion Hrun; subst r db'; clear Hrun.
      set (n' := touch (utcnow env) (assign note_update n)) in *.
      assert (Hwf' : wf (mkDB (users db) (replace_row n' (notes db)))).
      { apply (@request_wf (fun _ p => p) isoformat db); [|exact Hwf].
        eapply req_update. exact Hrun'. }
      assert (Hin' : In n' (replace_row n' (notes db))).
      { unfold replace_row. apply in_map_iff. exists n. split; trivial.
        subst n'. simpl. now rewrite Z.eqb_refl. }
      assert (Hf' := find_owned_row (mkDB (users db) (replace_row n' (notes db)))
                                    current_user n' (wf_note_id Hwf') Hin').
      assert (Ho' : owned_by current_user n' = true) by exact Hown.
      rewrite Ho' in Hf'.
      assert (Hid' : Note.id n' = note_id) by exact Hid.
      rewrite Hid' in Hf'.
      rewrite update_note_found with (n := n') by exact Hf'.
      subst n'. now rewrite assign_settles.
    + inversion Hrun; subst r db'; clear Hrun.
      rewrite update_note_found with (n := n) by exact Hf.
      now rewrite Hnet.
  - rewrite update_note_absent in Hrun by exact Hf. discriminate.
Qed.

(** X8.  Whatever id and body a caller sends to PUT or DELETE, and whatever
    the outcome, the notes that the caller does not own are after the request
    exactly those before it, each as it was. *)
Theorem other_owners_notes_are_untouched
        (db : DB) (note_id : Z) (note_update : NoteUpdate.t)
        (current_user : User.t) (env : Env) :
  wf db ->
  (forall o db' m,
      update_note isoformat note_id note_update current_user env db = (o, db') ->
      Note.owner_id m <> Some (User.id current_user) ->
      (In m (notes db') <-> In m (notes db)))
  /\ (forall o db' m,
         delete_note note_id current_user db = (o, db') ->
         Note.owner_id m <> Some (User.id current_user) ->
         (In m (notes db') <-> In m (notes db))).
Proof using Type.
  clear auth_verify_password create_access_token.
  intros Hwf.
  destruct (find (fun n => Z.eqb (Note.id n) note_id && owned_by current_user n)
                 (notes db)) as [n|] eqn:Hf.
  - assert (Hfn := Hf). apply find_some in Hfn. destruct Hfn as [Hin Hp].
    apply andb_true_iff in Hp. destruct Hp as [_ Hown].
    apply col_eqZ_true in Hown.
    assert (Hother : forall m, In m (notes db) ->
                               Note.owner_id m <> Some (User.id current_user) ->
                               Note.id m <> Note.id n).
    { intros m Hm Hno Hid. apply Hno.
      assert (m = n) by (eapply NoDup_map_eq; eauto using wf_note_id).
      now subst. }
    split.
    + intros o db' m Hrun Hno.
      rewrite update_note_found with (n := n) in Hrun by exact Hf.
      destruct (net_change n (assign note_update n));
        inversion Hrun; subst; clear Hrun; [|tauto].
      simpl. split.
      * intros Hm. apply in_replace_row in Hm. destruct Hm as [->|[Hm _]]; trivial.
        exfalso. apply Hno. exact Hown.
      * intros Hm. unfold replace_row. apply in_map_iff. exists m.
        split; trivial. simpl.
        assert (E : Z.eqb (Note.id m) (Note.id n) = false)
          by (apply Z.eqb_neq; auto).
        now rewrite E.
    + intros o db' m Hrun Hno.
      rewrite delete_note_found with (n := n) in Hrun by exact Hf.
      inversion Hrun; subst; clear Hrun. simpl. rewrite filter_In. split.
      * tauto.
      * intros Hm. split; trivial. apply negb_true_iff, Z.eqb_neq. auto.
  - split; intros o db' m Hrun _.
    + rewrite update_note_absent in Hrun by exact Hf.
      inversion Hrun; subst. tauto.
    + rewrite delete_note_absent in Hrun by exact Hf.
      inversion Hrun; subst. tauto.
Qed.

(** X9.  No request changes or removes a stored user: the users after it are
    the users before it, followed by at most one new one. *)
Theorem users_are_only_added (db db' : DB) :
  request get_password_hash isoformat db db' ->
  exists added, users db' = (users db ++ added)%list /\ length added <= 1.
Proof using Type.
  intros Hreq.
  assert (Hsame : users db' = users db ->
                  exists added, users db' = (users db ++ added)%list
                                /\ length added <= 1).
  { intros ->. exists []. rewrite app_nil_r. simpl. auto. }
  destruct Hreq as [user env o db db' H|note cu env o db db' H
                    |note_id upd cu env o db db' H|note_id cu o db db' H].
  - destruct (find (fun u => (User.username u =? UserCreate.username user)
                             || (User.email u =? UserCreate.email user))
                   (users db)) as [u|] eqn:Hf.
    + rewrite register_duplicate with (u := u) in H by exact Hf.
      inversion H; subst. now apply Hsame.
    + rewrite register_fresh in H by exact Hf. inversion H; subst; clear H.
      simpl. eexists. split; [reflexivity|]. simpl. auto.
  - apply Hsame. rewrite create_note_eq in H. cbv zeta in H.
    now destruct (share_id_taken _ (notes db)); inversion H; subst.
  - apply Hsame.
    destruct (find (fun n => Z.eqb (Note.id n) note_id && owned_by cu n)
                   (notes db)) as [n|] eqn:Hf.
    + rewrite update_note_found with (n := n) in H by exact Hf.
      now destruct (net_change n (assign upd n)); inversion H; subst.
    + rewrite update_note_absent in H by exact Hf. now inversion H; subst.
  - apply Hsame.
    destruct (find (fun n => Z.eqb (Note.id n) note_id && owned_by cu n)
                   (notes db)) as [n|] eqn:Hf.
    + rewrite delete_note_found with (n := n) in H by exact Hf.
      now inversion H; subst.
    + rewrite delete_note_absent in H by exact Hf. now inversion H; subst.
Qed.

(** X10.  In every store the service reaches, no two notes have the same id
    or the same share id, and no two users the same id, username or email. *)
Theorem reachable_store_keeps_keys_unique (db : DB) :
  reachable get_password_hash isoformat db ->
  (forall a b, In a (notes db) -> In b (notes db) ->
               Note.id a = Note.id b -> a = b)
  /\ (forall a b s, In a (notes db) -> In b (notes db) ->
                    Note.share_id a = Some s -> Note.share_id b = Some s -> a = b)
  /\ (forall u v, In u (users db) -> In v (users db) ->
                  User.id u = User.id v
                  \/ User.username u = User.username v
                  \/ User.email u = User.email v -> u = v).
Proof using Type.
  intros Hr. apply reachable_wf in Hr. destruct Hr as [Hni Hsi Hui Hun Hue].
  split; [|split].
  - intros a b Ha Hb Hid. now apply (NoDup_map_eq Note.id (notes db)).
  - intros a b s Ha Hb Hsa Hsb. now apply (@share_id_unique (notes db) a b s).
  - intros u v Hu Hv [H|[H|H]].
    + now apply (NoDup_map_eq User.id (users db)).
    + now apply (NoDup_map_eq User.username (users db)).
    + now apply (NoDup_map_eq User.email (users db)).
Qed.

(** X11.  In every store the service reaches, each share id consists of
    characters A-Z, a-z, 0-9 only. *)
Theorem reachable_share_ids_are_alphanumeric (db : DB) (n : Note.t) (s : string) :
  reachable get_password_hash isoformat db ->
  In n (notes db) -> Note.share_id n = Some s ->
  Forall (fun c => is_alnum c = true) (list_ascii_of_string s).
Proof using Type.
  clear auth_verify_password.
  intros Hr. revert n s.
  induction Hr as [|db db' Hr IH Hreq]; intros n' s Hn' Hs; [contradiction|].
  assert (Hwf := reachable_wf Hr).
  destruct Hreq as [user env o db db' H|note cu env o db db' H
                    |note_id upd cu env o db db' H|note_id cu o db db' H].
  - apply (IH n'); trivial.
    destruct (find (fun u => (User.username u =? UserCreate.username user)
                             || (User.email u =? UserCreate.email user))
                   (users db)) as [u|] eqn:Hf.
    + rewrite register_duplicate with (u := u) in H by exact Hf.
      now inversion H; subst.
    + rewrite register_fresh in H by exact Hf. now inversion H; subst.
  - rewrite create_note_eq in H. cbv zeta in H.
    destruct (share_id_taken _ (notes db)); inversion H; subst; clear H;
      [now apply (IH n')|].
    simpl in Hn'. apply in_app_iff in Hn'.
    destruct Hn' as [Hn'|[<-|[]]]; [now apply (IH n')|].
    simpl in Hs. inversion Hs; subst s. rewrite generate_share_id_chars.
    apply Forall_forall. intros c Hc. apply in_map_iff in Hc.
    destruct Hc as (i & <- & _). apply in_alphabet_alnum.
    apply secrets_choice_in_alphabet.
  - destruct (find (fun n => Z.eqb (Note.id n) note_id && owned_by cu n)
                   (notes db)) as [m|] eqn:Hf.
    + rewrite update_note_found with (n := m) in H by exact Hf.
      apply find_some in Hf. destruct Hf as [Hm _].
      destruct (net_change m (assign upd m)); inversion H; subst; clear H;
        [|now apply (IH n')].
      simpl in Hn'. apply in_replace_row in Hn'.
      destruct Hn' as [->|[Hn' _]]; [|now apply (IH n')].
      apply (IH m); trivial.
    + rewrite update_note_absent in H by exact Hf. inversion H; subst.
      now apply (IH n').
  - destruct (find (fun n => Z.eqb (Note.id n) note_id && owned_by cu n)
                   (notes db)) as [m|] eqn:Hf.
    + rewrite delete_note_found with (n := m) in H by exact Hf.
      inversion H; subst; clear H. simpl in Hn'.
      apply filter_In in Hn'. apply (IH n'); tauto.
    + rewrite delete_note_absent in H by exact Hf. inversion H; subst.
      now apply (IH n').
Qed.

Lemma register_returned user env db r db' :
  register get_password_hash user env db = (Return r, db') ->
  find (fun u => (User.username u =? UserCreate.username user)
                 || (User.email u =? UserCreate.email user)) (users db) = None
  /\ r = "User created successfully"
  /\ db' = mkDB (users db ++
                 [User.mk (next_id (map User.id (users db)))
                          (UserCreate.username user) (UserCreate.email user)
                          (get_password_hash (urandom env)
                                             (UserCreate.password user))
                          (utcnow env)])
                (notes db).
Proof using Type.
  intros H.
  destruct (find (fun u => (User.username u =? UserCreate.username user)
                           || (User.email u =? UserCreate.email user))
                 (users db)) as [u|] eqn:Hf.
  - rewrite register_duplicate with (u := u) in H by exact Hf. discriminate.
  - rewrite register_fresh in H by exact Hf. inversion H; subst. auto.
Qed.

(** X12.  After POST /register has created a user, any registration with
    that username or with that email, whatever its other fields, raises the
    400 and leaves the store as it is. *)
Theorem second_registration_conflicts
        (user : UserCreate.t) (env : Env) (db : DB) (r : string) (db' : DB) :
  register get_password_hash user env db = (Return r, db') ->
  forall user' env',
    UserCreate.username user' = UserCreate.username user
    \/ UserCreate.email user' = UserCreate.email user ->
    register get_password_hash user' env' db'
    = (Raise (HTTPException 400 "Username or email already registered"), db').
Proof using Type.
  intros Hrun user' env' Hdup.
  apply register_returned in Hrun. destruct Hrun as (_ & _ & ->).
  set (u := User.mk (next_id (map User.id (users db)))
                    (UserCreate.username user) (UserCreate.email user)
                    (get_password_hash (urandom env) (UserCreate.password user))
                    (utcnow env)).
  destruct (@find_duplicate_user user' (mkDB (users db ++ [u]) (notes db)) u)
    as (v & Hv).
  - simpl. apply in_app_iff. right. simpl. auto.
  - simpl. destruct Hdup as [H|H]; rewrite H; auto.
  - now apply register_duplicate with (u := v).
Qed.

(** X13.  With usernames unique, POST /token answers with a bearer token
    made for the username when the stored user of that name has a hash the
    password verifies against; and it raises one and the same 401, with the
    WWW-Authenticate header, when no user has the name and when the password
    does not verify.  The store is never changed. *)
Theorem login_token_or_unauthorized
        (form_data : OAuth2PasswordRequestForm.t) (env : Env) (db : DB) :
  wf db ->
  (forall u, In u (users db) ->
             User.username u = OAuth2PasswordRequestForm.username form_data ->
             auth_verify_password
               (OAuth2PasswordRequestForm.password form_data)
               (User.hashed_password u) = true ->
             login auth_verify_password create_access_token form_data env db
             = (LoginReturn
                  (TokenResponse.mk
                     (create_access_token
                        env
                        [("sub", OAuth2PasswordRequestForm.username form_data)])
                     "bearer"), db))
  /\ ((forall u, In u (users db) ->
                 User.username u = OAuth2PasswordRequestForm.username form_data ->
                 auth_verify_password
                   (OAuth2PasswordRequestForm.password form_data)
                   (User.hashed_password u) = false) ->
      login auth_verify_password create_access_token form_data env db
      = (LoginRaise 401 "Incorrect username or password"
                    [("WWW-Authenticate", "Bearer")], db)).
Proof using Type.
  intros Hwf. unfold login. split.
  - intros u Hin Hname Hver.
    destruct (find _ (users db)) as [v|] eqn:Hf.
    + apply find_some in Hf. destruct Hf as [Hv Hp]. apply String.eqb_eq in Hp.
      assert (v = u).
      { apply (NoDup_map_eq User.username (users db)); trivial.
        - apply (wf_username Hwf).
        - congruence. }
      subst v. rewrite Hver. simpl. now rewrite Hname.
    + apply (find_none _ _ Hf) in Hin. simpl in Hin.
      rewrite Hname, String.eqb_refl in Hin. discriminate.
  - intros Hall.
    destruct (find _ (users db)) as [v|] eqn:Hf; trivial.
    apply find_some in Hf. destruct Hf as [Hv Hp]. apply String.eqb_eq in Hp.
    now rewrite (Hall v Hv Hp).
Qed.

(** X14.  A user that POST /register has created gets a token from
    POST /token with the same username and password, provided the password
    verifies against the hash that was made of it; with a password that does
    not verify against that hash the answer is the 401. *)
Theorem registered_user_can_log_in
        (user : UserCreate.t) (env : Env) (db : DB) (r : string) (db' : DB) :
  register get_password_hash user env db = (Return r, db') ->
  auth_verify_password
    (UserCreate.password user)
    (get_password_hash (urandom env) (UserCreate.password user)) = true ->
  (forall env',
      login auth_verify_password create_access_token
            (OAuth2PasswordRequestForm.mk (UserCreate.username user)
                                          (UserCreate.password user)) env' db'
      = (LoginReturn
           (TokenResponse.mk
              (create_access_token env' [("sub", UserCreate.username user)])
              "bearer"), db'))
  /\ (forall password' env',
         auth_verify_password
           password'
           (get_password_hash (urandom env) (UserCreate.password user)) = false ->
         login auth_verify_password create_access_token
               (OAuth2PasswordRequestForm.mk (UserCreate.username user) password')
               env' db'
         = (LoginRaise 401 "Incorrect username or password"
                       [("WWW-Authenticate", "Bearer")], db')).
Proof using Type.
  intros Hrun Hver.
  apply register_returned in Hrun. destruct Hrun as (Hf & _ & ->).
  assert (Hnone : find (fun u => User.username u =? UserCreate.username user)
                       (users db) = None).
  { destruct (find (fun u => User.username u =? UserCreate.username user)
                   (users db)) as [v|] eqn:Hv; trivial.
    apply find_some in Hv. destruct Hv as [Hin Hp].
    apply (find_none _ _ Hf) in Hin. apply orb_false_iff in Hin.
    destruct Hin. congruence. }
  split.
  - intros env'. unfold login. simpl.
    rewrite find_app_none by exact Hnone. simpl.
    rewrite String.eqb_refl. simpl. now rewrite Hver.
  - intros password' env' Hbad. unfold login. simpl.
    rewrite find_app_none by exact Hnone. simpl.
    rewrite String.eqb_refl. simpl. now rewrite Hbad.
Qed.

(** X15.  DELETE /notes/{id} by the caller on the id that POST /notes has
    just answered with gives back the store as it was before the note was
    created. *)
Theorem delete_undoes_create
        (note : NoteCreate.t) (current_user : User.t) (env : Env)
        (db : DB) (r : NoteResponse.t) (db' : DB) :
  create_note isoformat note current_user env db = (Return r, db') ->
  delete_note (NoteResponse.id r) current_user db'
  = (Return "Note deleted successfully", db).
Proof using Type.
  intros Hrun. rewrite create_note_eq in Hrun. cbv zeta in Hrun.
  destruct (share_id_taken _ (notes db)); inversion Hrun; subst; clear Hrun.
  cbn [note_response NoteResponse.id Note.id].
  set (n := Note.mk (next_id (map Note.id (notes db)))
                    (NoteCreate.title note) (NoteCreate.content note)
                    (Some (User.id current_user)) false
                    (Some (generate_share_id (urandom env)))
                    (utcnow env) (utcnow env)).
  assert (Hf : find (fun r => Z.eqb (Note.id r) (next_id (map Note.id (notes db)))
                              && owned_by current_user r)
                    (notes (mkDB (users db) (notes db ++ [n]))) = Some n).
  { cbn [notes]. rewrite find_app_none by apply find_id_at_next.
    cbn [find]. subst n. cbn [Note.id]. rewrite Z.eqb_refl. unfold owned_by.
    cbn [Note.owner_id col_eqZ]. now rewrite Z.eqb_refl. }
  rewrite delete_note_found with (n := n) by exact Hf.
  cbn [users notes]. rewrite filter_app. subst n. cbn [Note.id].
  rewrite filter_below_next.
  cbn [filter Note.id]. rewrite Z.eqb_refl. cbn [negb].
  rewrite app_nil_r. now destruct db.
Qed.

(** X16.  No request gives a stored note another owner or another creation
    time: a note keeps both for as long as it is stored. *)
Theorem note_owner_never_changes (db db' : DB) (n n' : Note.t) :
  wf db -> request get_password_hash isoformat db db' ->
  In n (notes db) -> In n' (notes db') -> Note.id n' = Note.id n ->
  Note.owner_id n' = Note.owner_id n /\ Note.created_at n' = Note.created_at n.
Proof using Type.
  intros Hwf Hreq Hn Hn' Hid.
  now destruct (request_keeps_identity Hreq Hwf n n' Hn Hn' Hid) as (_ & Ho & Hc).
Qed.

End Further.

(** ** The further properties at the example store *)

Lemma demo_db_todo_reachable : reachable demo_hash demo_isoformat demo_db_todo.
Proof.
  apply reach_request with (db := demo_db); [exact demo_db_reachable|].
  eapply req_create
    with (note := NoteCreate.mk "Todo" "eggs") (current_user := bob)
         (env := mkEnv 300 ones).
  vm_compute. reflexivity.
Qed.

Lemma delete_note_removes_that_note_witness :
  wf demo_db /\ In grocery (notes demo_db)
  /\ Note.owner_id grocery = Some (User.id alice)
  /\ exists db',
      delete_note 1 alice demo_db = (Return "Note deleted successfully", db')
      /\ users db' = [alice; bob]
      /\ S (length (notes db')) = 1.
Proof.
  assert (Hin : In grocery (notes demo_db)) by (simpl; auto).
  split; [exact demo_db_wf|]. split; [exact Hin|]. split; [reflexivity|].
  destruct (@delete_note_removes_that_note demo_db grocery alice
              demo_db_wf Hin eq_refl)
    as (db' & Hrun & Hu & _ & Hlen & _).
  exists db'. split; [exact Hrun|]. split; [exact Hu|exact Hlen].
Defined.

Lemma deleted_note_is_gone_witness :
  wf demo_db /\ In grocery (notes demo_db)
  /\ delete_note 1 alice demo_db
     = (Return "Note deleted successfully", mkDB [alice; bob] [])
  /\ update_note demo_isoformat 1 (NoteUpdate.mk None (Some "eggs") None) alice
                 (mkEnv 400 zeros) (mkDB [alice; bob] [])
     = (Raise (HTTPException 404 "Note not found"), mkDB [alice; bob] [])
  /\ get_shared_note demo_isoformat "aaaaaaaaaa" (mkDB [alice; bob] [])
     = (Raise (HTTPException 404 "Note not found or not public"),
        mkDB [alice; bob] []).
Proof.
  assert (Hin : In grocery (notes demo_db)) by (simpl; auto).
  assert (Hrun : delete_note (Note.id grocery) alice demo_db
                 = (Return "Note deleted successfully", mkDB [alice; bob] []))
    by reflexivity.
  destruct (@deleted_note_is_gone demo_isoformat demo_db grocery alice _ _
              demo_db_wf Hin Hrun)
    as (Hup & _ & Hshared).
  split; [exact demo_db_wf|]. split; [exact Hin|]. split; [exact Hrun|].
  split.
  - exact (Hup alice (NoteUpdate.mk None (Some "eggs") None) (mkEnv 400 zeros)).
  - exact (Hshared "aaaaaaaaaa" eq_refl).
Defined.

Lemma created_note_is_listed_witness :
  create_note demo_isoformat (NoteCreate.mk "Todo" "eggs") bob (mkEnv 300 ones)
              demo_db
  = (Return (note_response demo_isoformat todo), demo_db_todo)
  /\ User.id alice <> User.id bob
  /\ (exists rs,
         get_notes demo_isoformat bob demo_db = (Return rs, demo_db)
         /\ get_notes demo_isoformat bob demo_db_todo
            = (Return (rs ++ [note_response demo_isoformat todo])%list,
               demo_db_todo))
  /\ fst (get_notes demo_isoformat alice demo_db_todo)
     = fst (get_notes demo_isoformat alice demo_db).
Proof.
  assert (Hrun : create_note demo_isoformat (NoteCreate.mk "Todo" "eggs") bob
                             (mkEnv 300 ones) demo_db
                 = (Return (note_response demo_isoformat todo), demo_db_todo))
    by reflexivity.
  assert (Hne : User.id alice <> User.id bob) by (simpl; lia).
  destruct (@created_note_is_listed demo_isoformat _ _ _ _ _ _ Hrun)
    as (Hown & Hother).
  split; [exact Hrun|]. split; [exact Hne|]. split; [exact Hown|].
  exact (Hother alice Hne).
Defined.

Lemma created_note_is_private_witness :
  create_note demo_isoformat (NoteCreate.mk "Todo" "eggs") bob (mkEnv 300 ones)
              demo_db
  = (Return (note_response demo_isoformat todo), demo_db_todo)
  /\ exists s,
      NoteResponse.share_id (note_response demo_isoformat todo) = Some s
      /\ get_shared_note demo_isoformat s demo_db_todo
         = (Raise (HTTPException 404 "Note not found or not public"),
            demo_db_todo).
Proof.
  assert (Hrun : create_note demo_isoformat (NoteCreate.mk "Todo" "eggs") bob
                             (mkEnv 300 ones) demo_db
                 = (Return (note_response demo_isoformat todo), demo_db_todo))
    by reflexivity.
  split; [exact Hrun|].
  exact (proj2 (@created_note_is_private demo_isoformat _ _ _ _ _ _ Hrun)).
Defined.

Lemma published_note_is_readable_witness :
  wf demo_db_todo /\ In todo (notes demo_db_todo)
  /\ Note.owner_id todo = Some (User.id bob)
  /\ Note.share_id todo = Some "bbbbbbbbbb"
  /\ exists r db',
      update_note demo_isoformat 2 (NoteUpdate.mk (Some "Shop") None (Some true))
                  bob (mkEnv 500 zeros) demo_db_todo
      = (Return r, db')
      /\ get_shared_note demo_isoformat "bbbbbbbbbb" db'
         = (Return (SharedNote.mk (NoteResponse.title r) (NoteResponse.content r)
                                  (NoteResponse.created_at r)), db').
Proof.
  assert (Hwf : wf demo_db_todo) by exact (reachable_wf demo_db_todo_reachable).
  assert (Hin : In todo (notes demo_db_todo)) by (simpl; auto).
  split; [exact Hwf|]. split; [exact Hin|]. split; [reflexivity|].
  split; [reflexivity|].
  exact (@published_note_is_readable demo_isoformat demo_db_todo todo
           "bbbbbbbbbb" bob (NoteUpdate.mk (Some "Shop") None (Some true))
           (mkEnv 500 zeros) Hwf Hin eq_refl eq_refl eq_refl).
Defined.

Lemma update_note_again_changes_nothing_witness :
  wf demo_db
  /\ update_note demo_isoformat 1 (NoteUpdate.mk None (Some "eggs") None) alice
                 (mkEnv 200 zeros) demo_db
     = (Return (note_response demo_isoformat grocery_eggs),
        mkDB [alice; bob] [grocery_eggs])
  /\ update_note demo_isoformat 1 (NoteUpdate.mk None (Some "eggs") None) alice
                 (mkEnv 900 zeros) (mkDB [alice; bob] [grocery_eggs])
     = (Return (note_response demo_isoformat grocery_eggs),
        mkDB [alice; bob] [grocery_eggs]).
Proof.
  assert (Hrun : update_note demo_isoformat 1
                             (NoteUpdate.mk None (Some "eggs") None) alice
                             (mkEnv 200 zeros) demo_db
                 = (Return (note_response demo_isoformat grocery_eggs),
                    mkDB [alice; bob] [grocery_eggs]))
    by reflexivity.
  split; [exact demo_db_wf|]. split; [exact Hrun|].
  exact (@update_note_again_changes_nothing demo_isoformat demo_db 1%Z
           (NoteUpdate.mk None (Some "eggs") None) alice (mkEnv 200 zeros)
           _ _ demo_db_wf Hrun (mkEnv 900 zeros)).
Defined.

Lemma other_owners_notes_are_untouched_witness :
  wf demo_db_todo
  /\ delete_note 2 bob demo_db_todo
     = (Return "Note deleted successfully", demo_db)
  /\ Note.owner_id grocery <> Some (User.id bob)
  /\ (In grocery (notes demo_db) <-> In grocery (notes demo_db_todo)).
Proof.
  assert (Hwf : wf demo_db_todo) by exact (reachable_wf demo_db_todo_reachable).
  assert (Hrun : delete_note 2 bob demo_db_todo
                 = (Return "Note deleted successfully", demo_db))
    by reflexivity.
  assert (Hno : Note.owner_id grocery <> Some (User.id bob))
    by (simpl; discriminate).
  split; [exact Hwf|]. split; [exact Hrun|]. split; [exact Hno|].
  exact (proj2 (@other_owners_notes_are_untouched demo_isoformat demo_db_todo
                  2%Z (NoteUpdate.mk None None None) bob (mkEnv 0 zeros) Hwf)
               _ _ grocery Hrun Hno).
Defined.

Lemma users_are_only_added_witness :
  request demo_hash demo_isoformat demo_db demo_db_carol
  /\ exists added,
      users demo_db_carol = (users demo_db ++ added)%list /\ length added <= 1.
Proof.
  assert (Hreq : request demo_hash demo_isoformat demo_db demo_db_carol).
  { eapply req_register with (user := carol) (env := mkEnv 5 zeros).
    vm_compute. reflexivity. }
  split; [exact Hreq|].
  exact (@users_are_only_added demo_hash demo_isoformat demo_db demo_db_carol Hreq).
Defined.

Lemma reachable_store_keeps_keys_unique_witness :
  reachable demo_hash demo_isoformat demo_db_todo
  /\ (forall a b, In a (notes demo_db_todo) -> In b (notes demo_db_todo) ->
                  Note.id a = Note.id b -> a = b).
Proof.
  split; [exact demo_db_todo_reachable|].
  exact (proj1 (@reachable_store_keeps_keys_unique demo_hash demo_isoformat
                  demo_db_todo demo_db_todo_reachable)).
Defined.

Lemma reachable_share_ids_are_alphanumeric_witness :
  reachable demo_hash demo_isoformat demo_db_todo
  /\ In todo (notes demo_db_todo)
  /\ Note.share_id todo = Some "bbbbbbbbbb"
  /\ Forall (fun c => is_alnum c = true) (list_ascii_of_string "bbbbbbbbbb").
Proof.
  assert (Hin : In todo (notes demo_db_todo)) by (simpl; auto).
  split; [exact demo_db_todo_reachable|]. split; [exact Hin|].
  split; [reflexivity|].
  exact (@reachable_share_ids_are_alphanumeric demo_hash demo_isoformat
           demo_db_todo todo "bbbbbbbbbb" demo_db_todo_reachable Hin eq_refl).
Defined.

Lemma second_registration_conflicts_witness :
  register demo_hash carol (mkEnv 5 zeros) demo_db
  = (Return "User created successfully", demo_db_carol)
  /\ UserCreate.username carol_too = UserCreate.username carol
  /\ register demo_hash carol_too (mkEnv 9 zeros) demo_db_carol
     = (Raise (HTTPException 400 "Username or email already registered"),
        demo_db_carol).
Proof.
  assert (Hrun : register demo_hash carol (mkEnv 5 zeros) demo_db
                 = (Return "User created successfully", demo_db_carol))
    by reflexivity.
  split; [exact Hrun|]. split; [reflexivity|].
  exact (@second_registration_conflicts demo_hash carol (mkEnv 5 zeros) demo_db
           _ _ Hrun carol_too (mkEnv 9 zeros) (or_introl eq_refl)).
Defined.

(** Alice with her password; Alice with another; a name nobody has. *)
Lemma login_token_or_unauthorized_witness :
  wf demo_db /\ In alice (users demo_db)
  /\ demo_verify "pw123" (User.hashed_password alice) = true
  /\ login demo_verify demo_token
           (OAuth2PasswordRequestForm.mk "alice" "pw123") (mkEnv 10 zeros) demo_db
     = (LoginReturn (TokenResponse.mk "alice" "bearer"), demo_db)
  /\ login demo_verify demo_token
           (OAuth2PasswordRequestForm.mk "alice" "nope") (mkEnv 10 zeros) demo_db
     = (LoginRaise 401 "Incorrect username or password"
                   [("WWW-Authenticate", "Bearer")], demo_db)
  /\ login demo_verify demo_token
           (OAuth2PasswordRequestForm.mk "mallory" "pw123") (mkEnv 10 zeros)
           demo_db
     = (LoginRaise 401 "Incorrect username or password"
                   [("WWW-Authenticate", "Bearer")], demo_db).
Proof.
  assert (Hin : In alice (users demo_db)) by (simpl; auto).
  assert (Hver : demo_verify "pw123" (User.hashed_password alice) = true)
    by reflexivity.
  assert (Hbad : forall u, In u (users demo_db) -> User.username u = "alice" ->
                           demo_verify "nope" (User.hashed_password u) = false).
  { intros u [<-|[<-|[]]] Hname; [reflexivity|discriminate]. }
  assert (Hnobody : forall u, In u (users demo_db) ->
                              User.username u = "mallory" ->
                              demo_verify "pw123" (User.hashed_password u) = false).
  { intros u [<-|[<-|[]]] Hname; discriminate. }
  split; [exact demo_db_wf|]. split; [exact Hin|]. split; [exact Hver|].
  split; [|split].
  - exact (proj1 (@login_token_or_unauthorized demo_verify demo_token
                    (OAuth2PasswordRequestForm.mk "alice" "pw123")
                    (mkEnv 10 zeros) demo_db demo_db_wf)
                 alice Hin eq_refl Hver).
  - exact (proj2 (@login_token_or_unauthorized demo_verify demo_token
                    (OAuth2PasswordRequestForm.mk "alice" "nope")
                    (mkEnv 10 zeros) demo_db demo_db_wf) Hbad).
  - exact (proj2 (@login_token_or_unauthorized demo_verify demo_token
                    (OAuth2PasswordRequestForm.mk "mallory" "pw123")
                    (mkEnv 10 zeros) demo_db demo_db_wf) Hnobody).
Defined.

Lemma registered_user_can_log_in_witness :
  register demo_hash carol (mkEnv 5 zeros) demo_db
  = (Return "User created successfully", demo_db_carol)
  /\ demo_verify "pw" (demo_hash zeros "pw") = true
  /\ login demo_verify demo_token (OAuth2PasswordRequestForm.mk "carol" "pw")
           (mkEnv 10 zeros) demo_db_carol
     = (LoginReturn (TokenResponse.mk "carol" "bearer"), demo_db_carol).
Proof.
  assert (Hrun : register demo_hash carol (mkEnv 5 zeros) demo_db
                 = (Return "User created successfully", demo_db_carol))
    by reflexivity.
  assert (Hver : demo_verify "pw" (demo_hash zeros "pw") = true) by reflexivity.
  split; [exact Hrun|]. split; [exact Hver|].
  exact (proj1 (@registered_user_can_log_in demo_hash demo_verify demo_token
                  carol (mkEnv 5 zeros) demo_db _ _ Hrun Hver)
               (mkEnv 10 zeros)).
Defined.

Lemma delete_undoes_create_witness :
  create_note demo_isoformat (NoteCreate.mk "Todo" "eggs") bob (mkEnv 300 ones)
              demo_db
  = (Return (note_response demo_isoformat todo), demo_db_todo)
  /\ delete_note 2 bob demo_db_todo
     = (Return "Note deleted successfully", demo_db).
Proof.
  assert (Hrun : create_note demo_isoformat (NoteCreate.mk "Todo" "eggs") bob
                             (mkEnv 300 ones) demo_db
                 = (Return (note_response demo_isoformat todo), demo_db_todo))
    by reflexivity.
  split; [exact Hrun|].
  exact (@delete_undoes_create demo_isoformat _ _ _ _ _ _ Hrun).
Defined.

Lemma note_owner_never_changes_witness :
  wf demo_db
  /\ request demo_hash demo_isoformat demo_db (mkDB [alice; bob] [grocery_eggs])
  /\ In grocery (notes demo_db)
  /\ In grocery_eggs (notes (mkDB [alice; bob] [grocery_eggs]))
  /\ Note.id grocery_eggs = Note.id grocery
  /\ Note.owner_id grocery_eggs = Note.owner_id grocery
  /\ Note.created_at grocery_eggs = Note.created_at grocery.
Proof.
  assert (Hreq : request demo_hash demo_isoformat demo_db
                         (mkDB [alice; bob] [grocery_eggs])).
  { eapply req_update
      with (note_id := 1%Z) (note_update := NoteUpdate.mk None (Some "eggs") None)
           (current_user := alice) (env := mkEnv 200 zeros).
    vm_compute. reflexivity. }
  assert (Hin : In grocery (notes demo_db)) by (simpl; auto).
  assert (Hin' : In grocery_eggs (notes (mkDB [alice; bob] [grocery_eggs])))
    by (simpl; auto).
  split; [exact demo_db_wf|]. split; [exact Hreq|]. split; [exact Hin|].
  split; [exact Hin'|]. split; [reflexivity|].
  exact (@note_owner_never_changes demo_hash demo_isoformat demo_db
           (mkDB [alice; bob] [grocery_eggs]) grocery grocery_eggs
           demo_db_wf Hreq Hin Hin' eq_refl).
Defined.

(** ** The share token generator on the draws of the random source *)

Lemma draws_bound : 2 ^ bit_length (length alphabet) = 64.
Proof. reflexivity. Qed.



Lemma choices_nil (m : nat) : choices (S m) alphabet [] = None.
Proof. reflexivity. Qed.

























